(** * extract_pdf.py: a shallow embedding and its specification

    The program locates a PDF (command-line argument, manual entry or a
    directory search with a numbered picklist), hands it to the extraction
    library and writes the Markdown next to the input.

    The embedding follows [src/extract_pdf.py] function by function.  The
    Python library calls the program makes ([str] methods, [int],
    [os.path.expanduser], [argparse], [pathlib] on a POSIX flavour,
    [input], [print]) are modelled in the first modules as CPython 3.11 has
    them; text is ASCII, one [ascii] per character. *)

From Stdlib Require Import String Ascii List ZArith Lia Bool Arith.
From Stdlib Require Import DecimalString DecimalNat.
Import ListNotations.
Open Scope string_scope.
Open Scope list_scope.
Open Scope nat_scope.

(** ** Python [str] *)

Module PyStr.

(** [str.isspace] restricted to ASCII: TAB..CR, FS..US and SPACE. *)
Definition is_space (c : ascii) : bool :=
  let n := nat_of_ascii c in
  ((9 <=? n) && (n <=? 13)) || ((28 <=? n) && (n <=? 32)).

Fixpoint lstrip (s : string) : string :=
  match s with
  | EmptyString => EmptyString
  | String c s' => if is_space c then lstrip s' else s
  end.

Fixpoint rstrip (s : string) : string :=
  match s with
  | EmptyString => EmptyString
  | String c s' =>
      match rstrip s' with
      | EmptyString => if is_space c then EmptyString else String c EmptyString
      | r => String c r
      end
  end.

(** [s.strip()] *)
Definition strip (s : string) : string := rstrip (lstrip s).

(** [s.rstrip(c)] for a one-character argument. *)
Fixpoint rstrip_char (c : ascii) (s : string) : string :=
  match s with
  | EmptyString => EmptyString
  | String a s' =>
      match rstrip_char c s' with
      | EmptyString => if Ascii.eqb a c then EmptyString else String a EmptyString
      | r => String a r
      end
  end.

Definition lower_char (c : ascii) : ascii :=
  let n := nat_of_ascii c in
  if (65 <=? n) && (n <=? 90) then ascii_of_nat (n + 32) else c.

(** [s.lower()] *)
Fixpoint lower (s : string) : string :=
  match s with
  | EmptyString => EmptyString
  | String c s' => String (lower_char c) (lower s')
  end.

(** [s.startswith(p)] *)
Definition startswith (s p : string) : bool := String.prefix p s.

(** [s.endswith(p)]: some tail of [s] is [p]. *)
Fixpoint endswith (s p : string) : bool :=
  String.eqb s p ||
  match s with
  | EmptyString => false
  | String _ s' => endswith s' p
  end.

(** Index normalisation of a slice bound: a negative bound counts from the
    end, and the result is clamped to [0, len]. *)
Definition adjust (len : nat) (i : Z) : nat :=
  let l := Z.of_nat len in
  let i := if (i <? 0)%Z then (i + l)%Z else i in
  Z.to_nat (Z.max 0 (Z.min i l)).

(** [s[start:stop]], a missing bound being [None]. *)
Definition slice (s : string) (start stop : option Z) : string :=
  let len := String.length s in
  let a := match start with Some i => adjust len i | None => 0 end in
  let b := match stop with Some j => adjust len j | None => len end in
  substring a (b - a) s.

Fixpoint find_from (c : ascii) (s : string) (start : nat) : option nat :=
  match s with
  | EmptyString => None
  | String a s' =>
      match start with
      | O => if Ascii.eqb a c then Some 0 else option_map S (find_from c s' 0)
      | S k => option_map S (find_from c s' k)
      end
  end.

(** [s.find(c, start)] for a one-character needle; -1 when absent. *)
Definition find (s : string) (c : ascii) (start : nat) : Z :=
  match find_from c s start with
  | Some i => Z.of_nat i
  | None => (-1)%Z
  end.

Fixpoint rfind_opt (c : ascii) (s : string) : option nat :=
  match s with
  | EmptyString => None
  | String a s' =>
      match rfind_opt c s' with
      | Some i => Some (S i)
      | None => if Ascii.eqb a c then Some 0 else None
      end
  end.

(** [s.rfind(c)] for a one-character needle; -1 when absent. *)
Definition rfind (s : string) (c : ascii) : Z :=
  match rfind_opt c s with
  | Some i => Z.of_nat i
  | None => (-1)%Z
  end.

(** [c in s] for a character. *)
Fixpoint contains (c : ascii) (s : string) : bool :=
  match s with
  | EmptyString => false
  | String a s' => Ascii.eqb a c || contains c s'
  end.

(** [s.split(c)] for a one-character separator. *)
Fixpoint split (c : ascii) (s : string) : list string :=
  match s with
  | EmptyString => [EmptyString]
  | String a s' =>
      if Ascii.eqb a c then EmptyString :: split c s'
      else match split c s' with
           | [] => [String a EmptyString]
           | w :: ws => String a w :: ws
           end
  end.

(** [str(n)] for a natural number. *)
Definition str_of_nat (n : nat) : string :=
  NilEmpty.string_of_uint (Nat.to_uint n).

Fixpoint spaces (n : nat) : string :=
  match n with
  | O => EmptyString
  | S k => String " "%char (spaces k)
  end.

(** [f"{n:2d}"]: decimal, right-aligned in a field of width 2. *)
Definition format_2d (n : nat) : string :=
  let d := str_of_nat n in
  (spaces (2 - String.length d) ++ d)%string.

(** [c * n] for a character. *)
Fixpoint repeat_char (c : ascii) (n : nat) : string :=
  match n with
  | O => EmptyString
  | S k => String c (repeat_char c k)
  end.

Definition is_digit (c : ascii) : bool :=
  let n := nat_of_ascii c in (48 <=? n) && (n <=? 57).

Definition digit_val (c : ascii) : Z := Z.of_nat (nat_of_ascii c - 48).

(** The digits of [int]'s argument, with an accumulator: single
    underscores are allowed between digits only. *)
Fixpoint int_digits (s : string) (acc : Z) (prev_digit : bool) : option Z :=
  match s with
  | EmptyString => if prev_digit then Some acc else None
  | String c s' =>
      if is_digit c then int_digits s' (10 * acc + digit_val c)%Z true
      else if Ascii.eqb c "_"%char then
        if prev_digit then
          match s' with
          | EmptyString => None
          | _ => int_digits s' acc false
          end
        else None
      else None
  end.

(** [int(s)], base 10: surrounding whitespace, an optional sign, digits.
    [None] stands for [ValueError].  The limit that recent releases put
    on the number of digits ([sys.set_int_max_str_digits]) is not
    modelled. *)
Definition int (s : string) : option Z :=
  match strip s with
  | String "+"%char r => int_digits r 0%Z false
  | String "-"%char r => option_map Z.opp (int_digits r 0%Z false)
  | r => int_digits r 0%Z false
  end.

Definition hex_digit (n : nat) : ascii :=
  nth n (list_ascii_of_string "0123456789abcdef") "0"%char.

(** One character of [repr(s)] between the quotes [quote]. *)
Definition escape_char (quote c : ascii) : string :=
  let n := nat_of_ascii c in
  if Ascii.eqb c quote || Ascii.eqb c "\" then String "\" (String c EmptyString)
  else if n =? 9 then "\t"
  else if n =? 10 then "\n"
  else if n =? 13 then "\r"
  else if (n <? 32) || (127 <=? n)
  then String "\" (String "x" (String (hex_digit (n / 16))
                                 (String (hex_digit (n mod 16)) EmptyString)))
  else String c EmptyString.

Fixpoint escape (quote : ascii) (s : string) : string :=
  match s with
  | EmptyString => EmptyString
  | String c s' => (escape_char quote c ++ escape quote s')%string
  end.

(** [repr(s)]: single quotes, unless the text has a single quote and no
    double quote. *)
Definition repr (s : string) : string :=
  let quote :=
    if contains "'" s && negb (contains (ascii_of_nat 34) s)
    then ascii_of_nat 34 else "'"%char in
  String quote (escape quote s ++ String quote EmptyString).

End PyStr.

(** ** Results of Python calls *)

(** The classes of the exceptions the program can meet, all of them
    subclasses of [Exception]: [OSError] stands for an [OSError] that is
    not a [PermissionError], [OtherException] for any class the
    extraction library or [open] may raise. *)
Inductive ExnClass : Type :=
  | EOFError
  | PermissionError
  | OSError
  | ValueError
  | IndexError
  | OtherException (class_name : string).

(** An exception: its class and [str(e)], the message it prints as. *)
Record PyExn : Type := mkExn { exn_class : ExnClass; exn_str : string }.

(** A call returns a value, raises, or leaves the process through
    [sys.exit], whose [SystemExit] no [except Exception] catches. *)
Inductive Outcome (A : Type) : Type :=
  | Return (a : A)
  | Raise (e : PyExn)
  | SysExit (code : Z).

Arguments Return {A} a.
Arguments Raise {A} e.
Arguments SysExit {A} code.

(** ** [pathlib.PurePosixPath] *)

Module PyPath.

(** A parsed path: the root ("", "/" or "//") and the components after it. *)
Record Path : Type := mkPath { root : string; parts : list string }.

Fixpoint lstrip_char (c : ascii) (s : string) : string :=
  match s with
  | EmptyString => EmptyString
  | String a s' => if Ascii.eqb a c then lstrip_char c s' else s
  end.

(** [_PosixFlavour.splitroot] *)
Definition splitroot (part : string) : string * string :=
  if PyStr.startswith part "/" then
    let stripped_part := lstrip_char "/" part in
    if String.length part - String.length stripped_part =? 2
    then ("//", stripped_part) else ("/", stripped_part)
  else ("", part).

Definition keep_part (x : string) : bool :=
  negb (String.eqb x "") && negb (String.eqb x ".").

(** [Path(s)]: [parse_parts] on one argument. *)
Definition parse (s : string) : Path :=
  let (r, rel) := splitroot s in
  mkPath r (filter keep_part (PyStr.split "/" rel)).

(** [p.name] *)
Definition name (p : Path) : string := last (parts p) "".

(** [p.suffix] *)
Definition suffix (p : Path) : string :=
  let name := name p in
  let i := PyStr.rfind name "." in
  if ((0 <? i)%Z && (i <? Z.of_nat (String.length name) - 1)%Z)%bool
  then PyStr.slice name (Some i) None
  else "".

(** [p.parent], for a path with a name. *)
Definition parent (p : Path) : Path := mkPath (root p) (removelast (parts p)).

(** [str(p)] *)
Definition str (p : Path) : string :=
  let s := (root p ++ String.concat "/" (parts p))%string in
  if String.eqb s "" then "." else s.

(** [repr(p)] *)
Definition repr (p : Path) : string :=
  ("PosixPath(" ++ PyStr.repr (str p) ++ ")")%string.

(** [p.with_suffix(suffix)] *)
Definition with_suffix (p : Path) (suffix' : string) : Outcome Path :=
  if PyStr.contains "/" suffix'
  then Raise (mkExn ValueError ("Invalid suffix " ++ PyStr.repr suffix')%string)
  else if (negb (String.eqb suffix' "") && negb (PyStr.startswith suffix' "."))
          || String.eqb suffix' "."
  then Raise (mkExn ValueError ("Invalid suffix " ++ PyStr.repr suffix')%string)
  else
    let name := name p in
    if String.eqb name ""
    then Raise (mkExn ValueError (repr p ++ " has an empty name")%string)
    else
      let old_suffix := suffix p in
      let name :=
        if String.eqb old_suffix "" then (name ++ suffix')%string
        else (PyStr.slice name None (Some (- Z.of_nat (String.length old_suffix))%Z)
              ++ suffix')%string in
      Return (mkPath (root p) (removelast (parts p) ++ [name])).

(** [p._make_child_relpath(name)] *)
Definition child (p : Path) (name : string) : Path :=
  mkPath (root p) (parts p ++ [name]).

Definition abs_parts (p : Path) : list string :=
  if String.eqb (root p) "" then parts p else "" :: root p :: parts p.

Fixpoint parts_eqb (a b : list string) : bool :=
  match a, b with
  | [], [] => true
  | x :: a', y :: b' => String.eqb x y && parts_eqb a' b'
  | _, _ => false
  end.

(** [p.relative_to(other)] *)
Definition relative_to (p other : Path) : Outcome Path :=
  let abs_parts_ := abs_parts p in
  let to_abs_parts := abs_parts other in
  let n := List.length to_abs_parts in
  if (if n =? 0 then negb (String.eqb (root p) "")
      else negb (parts_eqb (firstn n abs_parts_) to_abs_parts))
  then
    let formatted := (root other ++ String.concat "/" (parts other))%string in
    Raise (mkExn ValueError
             (PyStr.repr (str p) ++ " is not in the subpath of "
              ++ PyStr.repr formatted
              ++ " OR one path is relative and the other is absolute.")%string)
  else Return (mkPath (if n =? 1 then root p else "") (skipn n abs_parts_)).

(** [p.absolute()], the working directory being [cwd]. *)
Definition absolute (cwd p : Path) : Path :=
  if String.eqb (root p) "" then mkPath (root cwd) (parts cwd ++ parts p) else p.

End PyPath.

Export PyPath(Path, mkPath, root, parts).

(** ** [fnmatch] patterns, case-sensitive as on POSIX *)

Module Fnmatch.

Inductive token : Type :=
  | Star
  | Question
  | Lit (c : ascii).

(** The patterns of the program have no bracket expressions. *)
Fixpoint tokens (pat : string) : list token :=
  match pat with
  | EmptyString => []
  | String c pat' =>
      (if Ascii.eqb c "*" then Star
       else if Ascii.eqb c "?" then Question
       else Lit c) :: tokens pat'
  end.

Fixpoint matches (pat : list token) (s : string) {struct pat} : bool :=
  match pat with
  | [] => String.eqb s ""
  | Lit c :: pat' =>
      match s with
      | String a s' => Ascii.eqb a c && matches pat' s'
      | EmptyString => false
      end
  | Question :: pat' =>
      match s with
      | String _ s' => matches pat' s'
      | EmptyString => false
      end
  | Star :: pat' =>
      (fix any (t : string) : bool :=
         matches pat' t ||
         match t with
         | String _ t' => any t'
         | EmptyString => false
         end) s
  end.

(** [fnmatch.fnmatchcase(name, pat)] *)
Definition fnmatchcase (name pat : string) : bool := matches (tokens pat) name.

End Fnmatch.

(** ** [os.path.expanduser] *)

Module PyOs.

(** The part of the process environment [expanduser] reads: [$HOME] and
    the password database. *)
Record UserDb : Type := mkUserDb {
  HOME : string;
  getpwnam : string -> option string
}.

(** [posixpath.expanduser(path)], with [HOME] set. *)
Definition expanduser (db : UserDb) (path : string) : string :=
  if negb (PyStr.startswith path "~") then path
  else
    let i := PyStr.find path "/" 1 in
    let i := if (i <? 0)%Z then Z.of_nat (String.length path) else i in
    let userhome :=
      if (i =? 1)%Z then Some (HOME db)
      else getpwnam db (PyStr.slice path (Some 1%Z) (Some i)) in
    match userhome with
    | None => path
    | Some userhome =>
        let userhome := PyStr.rstrip_char "/" userhome in
        let r := (userhome ++ PyStr.slice path (Some i) None)%string in
        if String.eqb r "" then "/" else r
    end.

End PyOs.

(** ** The file system *)

Module PyFs.

(** The permission bits of a directory that matter to a search: read (list
    the entries) and search (reach the entries). *)
Record perms : Type := mkPerms { readable : bool; searchable : bool }.

#[local] Set Warnings "-register-all".

Inductive node : Type :=
  | File (name : string)
  | Dir (name : string) (mode : perms) (entries : list node).

Definition node_name (n : node) : string :=
  match n with
  | File name => name
  | Dir name _ _ => name
  end.

(** A directory tree from the root, the working directory, and the
    failures of [os.stat] that the tree does not account for (a name that
    is too long, an input/output error): for a path, the [errno] and the
    message of the system. *)
Record FileSystem : Type := mkFs {
  root_mode : perms;
  root_entries : list node;
  cwd : Path;
  fault : Path -> option (nat * string)
}.

Inductive entry : Type :=
  | Regular
  | Directory (mode : perms) (entries : list node).

(** What [os.stat] finds: an entry, an error that [pathlib] ignores
    ([ENOENT], [ENOTDIR], [EBADF], [ELOOP]), [EACCES] on the way through
    the tree, or another error. *)
Inductive stat_result : Type :=
  | Found (e : entry)
  | Missing
  | Denied
  | Failed (errno : nat) (strerror : string).

(** [pathlib._ignore_error], on the [errno]. *)
Definition ignore_error (errno : nat) : bool :=
  (errno =? 2) || (errno =? 20) || (errno =? 9) || (errno =? 40).

(** The class Python gives an [OSError] with this [errno]: [EACCES] and
    [EPERM] make a [PermissionError]. *)
Definition errno_class (errno : nat) : ExnClass :=
  if (errno =? 13) || (errno =? 1) then PermissionError else OSError.

(** The exception of a failed system call on the path [p]. *)
Definition os_error (errno : nat) (strerror : string) (p : Path) : PyExn :=
  mkExn (errno_class errno)
        ("[Errno " ++ PyStr.str_of_nat errno ++ "] " ++ strerror ++ ": "
         ++ PyStr.repr (PyPath.str p))%string.

Definition permission_denied (p : Path) : PyExn :=
  os_error 13 "Permission denied" p.

Fixpoint lookup (name : string) (entries : list node) : option node :=
  match entries with
  | [] => None
  | n :: rest => if String.eqb (node_name n) name then Some n else lookup name rest
  end.

(** Path resolution from directory [cur], whose ancestors are [up]. *)
Fixpoint resolve (up : list (perms * list node)) (cur : perms * list node)
    (comps : list string) : stat_result :=
  match comps with
  | [] => Found (Directory (fst cur) (snd cur))
  | c :: rest =>
      if negb (searchable (fst cur)) then Denied
      else if String.eqb c ".." then
        match up with
        | [] => resolve [] cur rest
        | d :: up' => resolve up' d rest
        end
      else
        match lookup c (snd cur) with
        | None => Missing
        | Some (File _) =>
            match rest with
            | [] => Found Regular
            | _ => Missing
            end
        | Some (Dir _ m es) => resolve (cur :: up) (m, es) rest
        end
  end.

Definition stat (fs : FileSystem) (p : Path) : stat_result :=
  match fault fs p with
  | Some (errno, strerror) =>
      if ignore_error errno then Missing else Failed errno strerror
  | None =>
      resolve [] (root_mode fs, root_entries fs) (parts (PyPath.absolute (cwd fs) p))
  end.

(** [p.exists()]: [False] on an ignored error; any other [OSError], a
    permission error among them, is raised again. *)
Definition exists_ (fs : FileSystem) (p : Path) : Outcome bool :=
  match stat fs p with
  | Found _ => Return true
  | Missing => Return false
  | Denied => Raise (permission_denied p)
  | Failed errno strerror => Raise (os_error errno strerror p)
  end.

(** [p.is_file()]: [False] on an ignored error; any other [OSError] is
    raised again, as for [exists]. *)
Definition is_file (fs : FileSystem) (p : Path) : Outcome bool :=
  match stat fs p with
  | Found Regular => Return true
  | Found (Directory _ _) => Return false
  | Missing => Return false
  | Denied => Raise (permission_denied p)
  | Failed errno strerror => Raise (os_error errno strerror p)
  end.

(** The entries of one directory at [path] whose names match. *)
Definition select_matching (pat : string) (path : Path) (entries : list node)
    : list Path :=
  map (PyPath.child path)
      (filter (fun name => Fnmatch.fnmatchcase name pat) (map node_name entries)).

(** The recursive wildcard selector on the directory [n] at [path]: its
    own matches, then those of its subdirectories in order.  A directory
    that cannot be listed contributes nothing (the selector drops the
    [PermissionError] of [scandir]); the subdirectories of a directory
    without search permission cannot be listed. *)
Fixpoint walk (pat : string) (path : Path) (n : node) {struct n} : list Path :=
  match n with
  | File _ => []
  | Dir _ m es =>
      if readable m then
        select_matching pat path es ++
        (if searchable m then
           (fix subdirs (l : list node) : list Path :=
              match l with
              | [] => []
              | e :: l' =>
                  match e with
                  | Dir name _ _ => walk pat (PyPath.child path name) e
                  | File _ => []
                  end ++ subdirs l'
              end) es
         else [])
      else []
  end.

(** [p.rglob(pat)], the paths in the order the generator yields them.
    Nothing is selected from a path that is not a directory. *)
Definition rglob (fs : FileSystem) (p : Path) (pat : string) : Outcome (list Path) :=
  match stat fs p with
  | Found (Directory m es) => Return (walk pat p (Dir (PyPath.name p) m es))
  | Found Regular => Return []
  | Missing => Return []
  | Denied => Raise (permission_denied p)
  | Failed errno strerror => Raise (os_error errno strerror p)
  end.

End PyFs.

Export PyFs(FileSystem, mkFs, File, Dir, mkPerms).

(** ** [argparse], for the parser of [main]

    The parser has one positional argument, [pdf_file] with [nargs="?"],
    and the option [-h]/[--help] that every parser gets; abbreviations of
    long options are allowed. *)

Module Argparse.

(** How [_parse_optional] reads one argument string, and what happens
    when the parser comes to it: a value for [pdf_file]; the help option
    (the help is printed, exit status 0); the help option with a value
    attached (an error); an option the parser does not have (an error,
    reported at the end). *)
Inductive kind : Type :=
  | Positional
  | Help
  | HelpWithValue
  | Unrecognized.

Fixpoint drop_digits (s : string) : string :=
  match s with
  | String c s' => if PyStr.is_digit c then drop_digits s' else s
  | EmptyString => EmptyString
  end.

(** The end of the text for a regular expression: the end, or a newline
    at the end. *)
Definition at_end (s : string) : bool :=
  String.eqb s "" || String.eqb s (String (ascii_of_nat 10) "").

(** [_negative_number_matcher]: a dash and digits, or a dash, digits if
    any, a dot and digits. *)
Definition negative_number (arg : string) : bool :=
  match arg with
  | String "-" r =>
      let r1 := drop_digits r in
      (negb (String.length r1 =? String.length r) && at_end r1)
      || match r1 with
         | String "." r2 =>
             let r3 := drop_digits r2 in
             negb (String.length r3 =? String.length r2) && at_end r3
         | _ => false
         end
  | _ => false
  end.

Fixpoint all_h (s : string) : bool :=
  match s with
  | EmptyString => true
  | String c s' => Ascii.eqb c "h" && all_h s'
  end.

(** The text before the first [=], and whether there is one. *)
Fixpoint before_equals (s : string) : string * bool :=
  match s with
  | EmptyString => (EmptyString, false)
  | String c s' =>
      if Ascii.eqb c "=" then (EmptyString, true)
      else let (u, found) := before_equals s' in (String c u, found)
  end.

(** [_parse_optional], then [consume_optional] for a help option.  A long
    option is [--help], in full or abbreviated; [-h] with more characters
    is read as further single-dash options, which can only be [-h]
    again. *)
Definition classify (arg : string) : kind :=
  match arg with
  | EmptyString => Positional
  | String c rest =>
      if negb (Ascii.eqb c "-") then Positional
      else if String.eqb arg "-h" || String.eqb arg "--help" then Help
      else if String.eqb rest "" then Positional
      else if PyStr.startswith arg "--" then
        let (option_prefix, explicit_arg) := before_equals arg in
        if PyStr.startswith "--help" option_prefix
        then (if explicit_arg then HelpWithValue else Help)
        else if PyStr.contains " " arg then Positional
        else Unrecognized
      else if PyStr.startswith arg "-h" then
        if all_h rest then Help else HelpWithValue
      else if negative_number arg then Positional
      else if PyStr.contains " " arg then Positional
      else Unrecognized
  end.

(** The arguments before the first [--] and those after it. *)
Fixpoint split_at_dashes (args : list string)
    : list string * list string :=
  match args with
  | [] => ([], [])
  | a :: rest =>
      if String.eqb a "--" then ([], rest)
      else let (before, after) := split_at_dashes rest in (a :: before, after)
  end.

(** What [parse_args] does: it returns the namespace, here the value of
    [pdf_file]; or prints the help on standard output and exits with
    status 0; or prints the usage and an error on standard error and
    exits with status 2. *)
Inductive result : Type :=
  | Namespace (pdf_file : option string)
  | HelpExit
  | UsageError.

(** The first help option among the arguments decides, if there is one:
    the parser acts on it when it comes to it, whereas unrecognized
    arguments are only reported at the end. *)
Fixpoint first_help (kinds : list kind) : option result :=
  match kinds with
  | [] => None
  | Help :: _ => Some HelpExit
  | HelpWithValue :: _ => Some UsageError
  | _ :: rest => first_help rest
  end.

Definition is_unrecognized (k : kind) : bool :=
  match k with
  | Unrecognized => true
  | _ => false
  end.

(** [parser.parse_args()] on the arguments after the program name. *)
Definition parse_args (args : list string) : result :=
  let (before, after) := split_at_dashes args in
  let kinds := map classify before in
  match first_help kinds with
  | Some r => r
  | None =>
      if existsb is_unrecognized kinds then UsageError
      else
        match before ++ after with
        | [] => Namespace None
        | [a] => Namespace (Some a)
        | _ => UsageError
        end
  end.

End Argparse.

(** ** The process: console, written files, collaborators *)

(** What the process writes to standard output: a [print], the prompt of
    an [input], or the help message of the argument parser (whose text
    depends on the name the program was started under). *)
Inductive event : Type :=
  | Print (s : string)
  | Prompt (s : string)
  | HelpMessage.

(** The lines still to be read from standard input, the output so far and
    the files opened for writing so far, each with the text it was left
    with. *)
Record World : Type := mkWorld {
  stdin : list string;
  stdout : list event;
  written : list (Path * string)
}.

(** How writing a file can fail, in the [with open(...)] block of
    [save_markdown]: [open] raises, and the file is not touched; or the
    file was opened, hence created or emptied, and [f.write] or the close
    raises, leaving the file with the text [remains]. *)
Inductive WriteFailure : Type :=
  | OpenFails (e : PyExn)
  | WriteFails (e : PyExn) (remains : string).

(** What the program does not own: the file system, the user database, the
    extraction library [pymupdf4llm.to_markdown], and whether writing to a
    path fails ([None]: the file is opened, written and closed). *)
Record Env : Type := mkEnv {
  fs : FileSystem;
  users : PyOs.UserDb;
  to_markdown : string -> Outcome string;
  write_error : Path -> option WriteFailure
}.

Definition nl : string := String (ascii_of_nat 10) EmptyString.
Definition dquote : string := String (ascii_of_nat 34) EmptyString.
Definition squote : string := "'".

(** [Path.home()] *)
Definition home (env : Env) : Path := PyPath.parse (PyOs.HOME (users env)).

(** What [input] raises when standard input is at its end. *)
Definition end_of_input : PyExn := mkExn EOFError "EOF when reading a line".

(** What [pdf_files[index]] raises for an index out of range. *)
Definition index_out_of_range : PyExn :=
  mkExn IndexError "list index out of range".

(** The result of a function that talks to the console: its outcome, the
    input left and the output so far. *)
Definition Console (A : Type) : Type := (Outcome A * list string * list event)%type.

(** ** The program *)

(** Lines 17 to 20 of [find_pdf_files]: where the search starts. *)
Definition search_root (env : Env) (search_dir : option string) : Path :=
  match search_dir with
  | None => home env
  | Some d => PyPath.parse d
  end.

(** The [for] loop of [find_pdf_files] over the paths the generator
    yields: the list as the loop left it, and how the loop ended (normally,
    or by an exception of [is_file]). *)
Fixpoint scan (env : Env) (yielded : list Path) (pdf_files : list Path)
    : list Path * Outcome unit :=
  match yielded with
  | [] => (pdf_files, Return tt)
  | pdf_file :: rest =>
      match PyFs.is_file (fs env) pdf_file with
      | Return true =>
          let pdf_files := pdf_files ++ [pdf_file] in
          if 20 <=? List.length pdf_files then (pdf_files, Return tt)
          else scan env rest pdf_files
      | Return false => scan env rest pdf_files
      | Raise e => (pdf_files, Raise e)
      | SysExit c => (pdf_files, SysExit c)
      end
  end.

Definition find_pdf_files (env : Env) (search_dir : option string)
    : Outcome (list Path) :=
  let search_dir := search_root env search_dir in
  let pdf_files := [] in
  let '(pdf_files, ended) :=
    match PyFs.rglob (fs env) search_dir "*.pdf" with
    | Return yielded => scan env yielded pdf_files
    | Raise e => (pdf_files, Raise e)
    | SysExit c => (pdf_files, SysExit c)
    end in
  match ended with
  | Return _ => Return pdf_files
  | Raise e =>
      match exn_class e with
      | PermissionError => Return pdf_files
      | _ => Raise e
      end
  | SysExit c => SysExit c
  end.

Definition display_path (env : Env) (pdf_file : Path) : string :=
  match PyPath.relative_to pdf_file (home env) with
  | Return rel_path => ("~/" ++ PyPath.str rel_path)%string
  | _ => PyPath.str pdf_file
  end.

(** The numbered lines, [enumerate(pdf_files, i)]. *)
Fixpoint listing (env : Env) (i : nat) (pdf_files : list Path) : list event :=
  match pdf_files with
  | [] => []
  | pdf_file :: rest =>
      Print (PyStr.format_2d i ++ ". " ++ display_path env pdf_file)%string
      :: listing env (S i) rest
  end.

Definition truncation_notice : event := Print "    ... (showing first 20 results)".

Definition select_prompt (pdf_files : list Path) : event :=
  Prompt (nl ++ "Select a file (1-" ++ PyStr.str_of_nat (List.length pdf_files)
          ++ ") or 'q' to quit: ")%string.

Definition range_message (pdf_files : list Path) : event :=
  Print ("Please enter a number between 1 and "
         ++ PyStr.str_of_nat (List.length pdf_files))%string.

Definition number_message : event :=
  Print "Please enter a valid number or 'q' to quit".

(** The [while True] loop of [select_from_list]. *)
Fixpoint select_loop (pdf_files : list Path) (lines : list string)
    (out : list event) : Console (option Path) :=
  let out := out ++ [select_prompt pdf_files] in
  match lines with
  | [] => (Raise end_of_input, [], out)
  | line :: rest =>
      let choice := PyStr.strip line in
      if String.eqb (PyStr.lower choice) "q" then (Return None, rest, out)
      else
        match PyStr.int choice with
        | Some n =>
            let index := (n - 1)%Z in
            if ((0 <=? index)%Z && (index <? Z.of_nat (List.length pdf_files))%Z)%bool
            then
              match nth_error pdf_files (Z.to_nat index) with
              | Some pdf_file => (Return (Some pdf_file), rest, out)
              | None => (Raise index_out_of_range, rest, out)
              end
            else select_loop pdf_files rest (out ++ [range_message pdf_files])
        | None => select_loop pdf_files rest (out ++ [number_message])
        end
  end.

Definition select_from_list (env : Env) (pdf_files : list Path)
    (lines : list string) (out : list event) : Console (option Path) :=
  match pdf_files with
  | [] => (Return None, lines, out)
  | _ =>
      let out := out ++ [Print (nl ++ "Found PDF files:")%string] in
      let out := out ++ listing env 1 pdf_files in
      let out :=
        if 20 <=? List.length pdf_files then out ++ [truncation_notice] else out in
      select_loop pdf_files lines out
  end.

(** The quote handling of manual entry (lines 115 to 118) and of the
    search directory (lines 90 to 93), which are the same statements. *)
Definition strip_quotes (s : string) : string :=
  if PyStr.startswith s dquote && PyStr.endswith s dquote
  then PyStr.slice s (Some 1%Z) (Some (-1)%Z)
  else if PyStr.startswith s squote && PyStr.endswith s squote
  then PyStr.slice s (Some 1%Z) (Some (-1)%Z)
  else s.

(** Lines 112 to 125 of [get_manual_path]: from the line read to the path
    string that is checked. *)
Definition clean_path (env : Env) (line : string) : string :=
  let pdf_path := PyStr.strip line in
  let pdf_path := strip_quotes pdf_path in
  let pdf_path :=
    if PyStr.startswith pdf_path "file://"
    then PyStr.slice pdf_path (Some 7%Z) None
    else pdf_path in
  PyOs.expanduser (users env) pdf_path.

Definition tip : event :=
  Print (nl ++ "Tip: You can drag and drop a file here, or copy/paste the full path")%string.

Definition path_prompt : event := Prompt "Enter the path to your PDF file: ".

Definition retry_prompt : event := Prompt "Try again? (y/n): ".

Definition missing_messages (env : Env) (pdf_file : Path) : list event :=
  [ Print "Error: File does not exist.";
    Print ("Looked for: "
           ++ PyPath.str (PyPath.absolute (PyFs.cwd (fs env)) pdf_file))%string ].

Definition not_pdf_message (pdf_path : string) : event :=
  Print ("Error: '" ++ pdf_path ++ "' is not a PDF file. Please provide a PDF file.")%string.

(** The [while True] loop of [get_manual_path]. *)
Fixpoint get_manual_path (env : Env) (lines : list string) (out : list event)
    : Console (option Path) :=
  let out := out ++ [tip; path_prompt] in
  match lines with
  | [] => (Raise end_of_input, [], out)
  | line :: rest =>
      let pdf_path := clean_path env line in
      let pdf_file := PyPath.parse pdf_path in
      match PyFs.exists_ (fs env) pdf_file with
      | Return false =>
          let out := out ++ missing_messages env pdf_file ++ [retry_prompt] in
          match rest with
          | [] => (Raise end_of_input, [], out)
          | answer :: rest' =>
              let retry := PyStr.lower (PyStr.strip answer) in
              if negb (String.eqb retry "y") then (Return None, rest', out)
              else get_manual_path env rest' out
          end
      | Return true =>
          if negb (String.eqb (PyStr.lower (PyPath.suffix pdf_file)) ".pdf")
          then get_manual_path env rest (out ++ [not_pdf_message pdf_path])
          else (Return (Some pdf_file), rest, out)
      | Raise e => (Raise e, rest, out)
      | SysExit c => (SysExit c, rest, out)
      end
  end.

Definition menu : list event :=
  [ Print (nl ++ "Choose how to select your PDF file:")%string;
    Print "1. Enter file path manually";
    Print "2. Search for PDF files from home directory";
    Print "3. Search for PDF files from a specific directory" ].

Definition option_prompt : event := Prompt (nl ++ "Select option (1-3): ")%string.

Definition directory_prompt : event := Prompt "Enter directory to search in: ".

(** The search directory as entered, lines 89 to 93 of [get_pdf_path]. *)
Definition clean_dir (line : string) : string := strip_quotes (PyStr.strip line).

(** The [while True] loop of [get_pdf_path]. *)
Fixpoint option_loop (env : Env) (lines : list string) (out : list event)
    : Console (option Path) :=
  let out := out ++ [option_prompt] in
  match lines with
  | [] => (Raise end_of_input, [], out)
  | line :: rest =>
      let choice := PyStr.strip line in
      if String.eqb choice "1" then get_manual_path env rest out
      else if String.eqb choice "2" then
        match find_pdf_files env None with
        | Return [] =>
            option_loop env rest (out ++ [Print "No PDF files found in home directory."])
        | Return pdf_files => select_from_list env pdf_files rest out
        | Raise e => (Raise e, rest, out)
        | SysExit c => (SysExit c, rest, out)
        end
      else if String.eqb choice "3" then
        let out := out ++ [directory_prompt] in
        match rest with
        | [] => (Raise end_of_input, [], out)
        | line' :: rest' =>
            let search_dir := clean_dir line' in
            match PyFs.exists_ (fs env) (PyPath.parse search_dir) with
            | Return false =>
                option_loop env rest'
                  (out ++ [Print ("Directory '" ++ search_dir ++ "' does not exist.")%string])
            | Return true =>
                match find_pdf_files env (Some search_dir) with
                | Return [] =>
                    option_loop env rest'
                      (out ++ [Print ("No PDF files found in '" ++ search_dir ++ "'.")%string])
                | Return pdf_files => select_from_list env pdf_files rest' out
                | Raise e => (Raise e, rest', out)
                | SysExit c => (SysExit c, rest', out)
                end
            | Raise e => (Raise e, rest', out)
            | SysExit c => (SysExit c, rest', out)
            end
        end
      else option_loop env rest (out ++ [Print "Please enter 1, 2, or 3"])
  end.

Definition get_pdf_path (env : Env) (lines : list string) (out : list event)
    : Console (option Path) :=
  option_loop env lines (out ++ menu).

Definition extract_pdf_to_markdown (env : Env) (pdf_path : Path)
    (out : list event) : Outcome (option string) * list event :=
  let out := out ++ [Print ("Extracting text from: " ++ PyPath.str pdf_path)%string] in
  match to_markdown env (PyPath.str pdf_path) with
  | Return md_text => (Return (Some md_text), out)
  | Raise e => (Return None, out ++ [Print ("Error extracting PDF: " ++ exn_str e)%string])
  | SysExit c => (SysExit c, out)
  end.

Definition save_markdown (env : Env) (md_text : string) (pdf_path : Path)
    (w : World) : Outcome (option Path) * World :=
  match PyPath.with_suffix pdf_path ".md" with
  | Return output_path =>
      match write_error env output_path with
      | None =>
          (Return (Some output_path),
           mkWorld (stdin w)
                   (stdout w ++ [Print ("Markdown saved to: " ++ PyPath.str output_path)%string])
                   (written w ++ [(output_path, md_text)]))
      | Some (OpenFails e) =>
          (Return None,
           mkWorld (stdin w)
                   (stdout w ++ [Print ("Error saving markdown file: " ++ exn_str e)%string])
                   (written w))
      | Some (WriteFails e remains) =>
          (Return None,
           mkWorld (stdin w)
                   (stdout w ++ [Print ("Error saving markdown file: " ++ exn_str e)%string])
                   (written w ++ [(output_path, remains)]))
      end
  | Raise e => (Raise e, w)
  | SysExit c => (SysExit c, w)
  end.

Definition banner : list event :=
  [ Print "PDF to Markdown Extractor"; Print (PyStr.repeat_char "-" 30) ].

(** Lines 184 to 196 of [main]: the path from the command line or from the
    interactive selection.  [pdf_file] is [args.pdf_file]. *)
Definition main_pdf_path (env : Env) (pdf_file : option string) (w : World)
    : Outcome Path * World :=
  let truthy := match pdf_file with
                | Some a => negb (String.eqb a "")
                | None => false
                end in
  if truthy then
    let arg := match pdf_file with Some a => a | None => "" end in
    let pdf_path := PyPath.parse arg in
    match PyFs.exists_ (fs env) pdf_path with
    | Return false =>
        (SysExit 1%Z,
         mkWorld (stdin w)
                 (stdout w ++ [Print ("Error: File '" ++ arg ++ "' does not exist.")%string])
                 (written w))
    | Return true =>
        if negb (String.eqb (PyStr.lower (PyPath.suffix pdf_path)) ".pdf")
        then (SysExit 1%Z,
              mkWorld (stdin w)
                      (stdout w ++ [Print ("Error: '" ++ arg ++ "' is not a PDF file.")%string])
                      (written w))
        else (Return pdf_path, w)
    | Raise e => (Raise e, w)
    | SysExit c => (SysExit c, w)
    end
  else
    match get_pdf_path env (stdin w) (stdout w) with
    | (Return None, lines, out) =>
        (SysExit 0%Z, mkWorld lines (out ++ [Print "No file selected. Exiting."]) (written w))
    | (Return (Some pdf_path), lines, out) =>
        (Return pdf_path, mkWorld lines out (written w))
    | (Raise e, lines, out) => (Raise e, mkWorld lines out (written w))
    | (SysExit c, lines, out) => (SysExit c, mkWorld lines out (written w))
    end.

(** Lines 198 to 210 of [main]: extraction, then saving. *)
Definition main_convert (env : Env) (pdf_path : Path) (w : World)
    : Outcome unit * World :=
  match extract_pdf_to_markdown env pdf_path (stdout w) with
  | (Return None, out) => (SysExit 1%Z, mkWorld (stdin w) out (written w))
  | (Return (Some md_text), out) =>
      match save_markdown env md_text pdf_path (mkWorld (stdin w) out (written w)) with
      | (Return None, w') => (SysExit 1%Z, w')
      | (Return (Some output_path), w') =>
          (Return tt,
           mkWorld (stdin w')
                   (stdout w' ++
                    [ Print (nl ++ "Extraction completed successfully!")%string;
                      Print ("Input PDF: " ++ PyPath.str pdf_path)%string;
                      Print ("Output Markdown: " ++ PyPath.str output_path)%string ])
                   (written w'))
      | (Raise e, w') => (Raise e, w')
      | (SysExit c, w') => (SysExit c, w')
      end
  | (Raise e, out) => (Raise e, mkWorld (stdin w) out (written w))
  | (SysExit c, out) => (SysExit c, mkWorld (stdin w) out (written w))
  end.

(** Lines 180 to 210 of [main]: what follows the parsing of the command
    line, [pdf_file] being [args.pdf_file]. *)
Definition main (env : Env) (pdf_file : option string) (w : World)
    : Outcome unit * World :=
  let w := mkWorld (stdin w) (stdout w ++ banner) (written w) in
  match main_pdf_path env pdf_file w with
  | (Return pdf_path, w') => main_convert env pdf_path w'
  | (Raise e, w') => (Raise e, w')
  | (SysExit c, w') => (SysExit c, w')
  end.

(** The whole of [main], from line 176: the command line is parsed, which
    can end the process before anything is printed, and the rest runs on
    the value of [pdf_file].  [argv] is [sys.argv[1:]]. *)
Definition main_with_arguments (env : Env) (argv : list string) (w : World)
    : Outcome unit * World :=
  match Argparse.parse_args argv with
  | Argparse.Namespace pdf_file => main env pdf_file w
  | Argparse.HelpExit =>
      (SysExit 0%Z, mkWorld (stdin w) (stdout w ++ [HelpMessage]) (written w))
  | Argparse.UsageError => (SysExit 2%Z, w)
  end.

(** The exit status of the process: 0 at the end of [main], the argument
    of [sys.exit], 1 after an uncaught exception. *)
Definition exit_status {A : Type} (o : Outcome A) : Z :=
  match o with
  | Return _ => 0%Z
  | SysExit c => c
  | Raise _ => 1%Z
  end.

Definition outcome_of {A : Type} (c : Console A) : Outcome A := fst (fst c).
Definition input_left {A : Type} (c : Console A) : list string := snd (fst c).
Definition output_of {A : Type} (c : Console A) : list event := snd c.

(** [p] is a regular file the search may keep. *)
Definition regular (env : Env) (p : Path) : bool :=
  match PyFs.is_file (fs env) p with
  | Return true => true
  | _ => false
  end.

(** [is_file] answers for [p], without an exception. *)
Definition answers (env : Env) (p : Path) : bool :=
  match PyFs.is_file (fs env) p with
  | Return _ => true
  | _ => false
  end.

(** A string of decimal digits. *)
Fixpoint all_digits (s : string) : bool :=
  match s with
  | EmptyString => true
  | String c s' => PyStr.is_digit c && all_digits s'
  end.


(** A path as [Path(...)] builds it: one of the three roots, and parts
    that are non-empty, not [.], and free of [/]. *)
Definition well_formed (p : Path) : Prop :=
  (root p = "" \/ root p = "/" \/ root p = "//")
  /\ Forall (fun x => PyStr.contains "/" x = false /\ PyPath.keep_part x = true)
            (parts p).

(** ** Lines the interactive loops turn down *)

(** A picklist line that is neither [q] nor a number in range. *)
Definition rejected_choice (pdf_files : list Path) (line : string) : bool :=
  negb (String.eqb (PyStr.lower (PyStr.strip line)) "q")
  && match PyStr.int (PyStr.strip line) with
     | Some n =>
         negb ((0 <=? n - 1)%Z && (n - 1 <? Z.of_nat (List.length pdf_files))%Z)
     | None => true
     end.

(** What the picklist prints for a line it turns down. *)
Definition rejection_message (pdf_files : list Path) (line : string) : event :=
  match PyStr.int (PyStr.strip line) with
  | Some _ => range_message pdf_files
  | None => number_message
  end.

(** A menu line that is none of the three options. *)
Definition unknown_option (line : string) : bool :=
  negb (String.eqb (PyStr.strip line) "1")
  && negb (String.eqb (PyStr.strip line) "2")
  && negb (String.eqb (PyStr.strip line) "3").

(** ** The clean-up of a manually entered path, on the structure of the
    string

    One layer of quotes is removed, then a leading [file://], then a
    leading [~] is expanded.  These definitions work on the structure of
    the string, where the program uses [startswith], [endswith], [find]
    and slices; they follow the tests of the program, for which a string
    that is one quote character alone has that character at both ends. *)

Module Wording.

Definition starts_with_char (q : ascii) (s : string) : bool :=
  match s with
  | String a _ => Ascii.eqb a q
  | EmptyString => false
  end.

Fixpoint ends_with_char (q : ascii) (s : string) : bool :=
  match s with
  | EmptyString => false
  | String a EmptyString => Ascii.eqb a q
  | String _ s' => ends_with_char q s'
  end.

Definition drop_first (s : string) : string :=
  match s with
  | String _ s' => s'
  | EmptyString => EmptyString
  end.

Fixpoint drop_last (s : string) : string :=
  match s with
  | EmptyString => EmptyString
  | String _ EmptyString => EmptyString
  | String a s' => String a (drop_last s')
  end.

(** The string starts with [q] and ends with [q], as [startswith] and
    [endswith] tell: the one character of [String q ""] is both. *)
Definition quoted_by (q : ascii) (s : string) : bool :=
  starts_with_char q s && ends_with_char q s.

(** One layer of quotes off: double quotes if the string has them at both
    ends, else single quotes if it has those at both ends. *)
Definition remove_quotes (s : string) : string :=
  if quoted_by (ascii_of_nat 34) s then drop_last (drop_first s)
  else if quoted_by "'" s then drop_last (drop_first s)
  else s.

Fixpoint strip_prefix (p s : string) : option string :=
  match p with
  | EmptyString => Some s
  | String c p' =>
      match s with
      | String a s' => if Ascii.eqb a c then strip_prefix p' s' else None
      | EmptyString => None
      end
  end.

Definition remove_scheme (s : string) : string :=
  match strip_prefix "file://" s with
  | Some rest => rest
  | None => s
  end.

(** The string up to the first [c], and the rest from that [c] on. *)
Fixpoint break_at (c : ascii) (s : string) : string * string :=
  match s with
  | EmptyString => (EmptyString, EmptyString)
  | String a s' =>
      if Ascii.eqb a c then (EmptyString, s)
      else let (u, t) := break_at c s' in (String a u, t)
  end.

(** A leading [~] (alone or before a [/]) becomes the home directory of the
    user; [~name] becomes the home directory of [name] when the password
    database knows it, and is left alone otherwise. *)
Definition expand_tilde (db : PyOs.UserDb) (s : string) : string :=
  match s with
  | String "~"%char r =>
      let (user, tail) := break_at "/" r in
      match (if String.eqb user "" then Some (PyOs.HOME db)
             else PyOs.getpwnam db user) with
      | Some dir =>
          let expanded := (PyStr.rstrip_char "/" dir ++ tail)%string in
          if String.eqb expanded "" then "/" else expanded
      | None => s
      end
  | _ => s
  end.

Definition sanitize (db : PyOs.UserDb) (line : string) : string :=
  expand_tilde db (remove_scheme (remove_quotes (PyStr.strip line))).

End Wording.

(** ** The clean-up of a manually entered path, as the specification
    states it

    The quotes that are removed surround the text: a leading and a
    trailing quote character of the same kind, which are two characters
    of the string.  The other two steps are those of [Wording]. *)

Module Stated.

Definition surrounded_by (q : ascii) (s : string) : bool :=
  match s with
  | String a (String b r) => Ascii.eqb a q && Wording.ends_with_char q (String b r)
  | _ => false
  end.

(** One layer of surrounding quotes off: both double quotes, or both
    single quotes. *)
Definition remove_quotes (s : string) : string :=
  if surrounded_by (ascii_of_nat 34) s || surrounded_by "'" s
  then Wording.drop_last (Wording.drop_first s)
  else s.

Definition sanitize (db : PyOs.UserDb) (line : string) : string :=
  Wording.expand_tilde db
    (Wording.remove_scheme (remove_quotes (PyStr.strip line))).

End Stated.

Definition is_prompt (e : event) : bool :=
  match e with
  | Prompt _ => true
  | Print _ => false
  | HelpMessage => false
  end.

(** ** A small installation, for the examples *)

Module Example.

Definition open_mode : PyFs.perms := mkPerms true true.

(** A directory that can be listed but whose entries cannot be reached
    (mode r--). *)
Definition list_only : PyFs.perms := mkPerms true false.

(** A directory that cannot be listed (mode ---). *)
Definition closed : PyFs.perms := mkPerms false false.

Definition numbered (n : nat) : list PyFs.node :=
  map (fun i => File (PyStr.str_of_nat i ++ ".pdf")%string) (seq 1 n).

Definition tree : FileSystem :=
  mkFs open_mode
    [ Dir "home" open_mode
        [ Dir "u" open_mode
            [ File "report.PDF"; File "notes.txt"; File "a.pdf";
              Dir "scans.pdf" open_mode [ File "page.pdf" ];
              Dir "docs" open_mode [ File "b.pdf"; File "broken.pdf" ] ] ];
      Dir "many" open_mode (numbered 25);
      Dir "srv" open_mode
        [ Dir "locked" list_only [ File "secret.pdf" ];
          Dir "public" open_mode [ File "manual.pdf" ] ];
      Dir "var" open_mode
        [ Dir "private" closed [ File "hidden.pdf" ];
          Dir "shared" open_mode [ File "seen.pdf" ] ];
      Dir "mix" open_mode
        [ File "first.pdf";
          Dir "locked" list_only [ File "secret.pdf" ];
          Dir "public" open_mode [ File "later.pdf" ] ] ]
    (PyPath.parse "/home/u")
    (fun _ => None).

Definition env : Env :=
  mkEnv tree
        (PyOs.mkUserDb "/home/u" (fun _ => None))
        (fun path =>
           if PyStr.endswith path "broken.pdf"
           then Raise (mkExn (OtherException "FileDataError")
                             "cannot open broken document")
           else Return ("# " ++ path)%string)
        (fun _ => None).

(** The same installation on a full disk: a file can be opened for
    writing, which empties it, and nothing can be written to it. *)
Definition disk_full : PyExn :=
  mkExn OSError "[Errno 28] No space left on device".

Definition env_disk_full : Env :=
  mkEnv tree (users env) (to_markdown env) (fun _ => Some (WriteFails disk_full "")).

(** The same installation with directories that cannot be written to. *)
Definition read_only (p : Path) : PyExn :=
  mkExn PermissionError
        ("[Errno 13] Permission denied: " ++ PyStr.repr (PyPath.str p))%string.

Definition env_read_only : Env :=
  mkEnv tree (users env) (to_markdown env) (fun p => Some (OpenFails (read_only p))).

Definition fresh (lines : list string) : World := mkWorld lines [] [].

(** The first twenty files of [/many], as the search yields them. *)
Definition first_twenty : list Path :=
  map (fun i => mkPath "/" ["many"; (PyStr.str_of_nat i ++ ".pdf")%string]) (seq 1 20).

End Example.

(** The lines the picklist prints before its first prompt. *)
Definition picklist_shown (env : Env) (pdf_files : list Path) : list event :=
  [Print (nl ++ "Found PDF files:")%string]
  ++ listing env 1 pdf_files
  ++ (if 20 <=? List.length pdf_files then [truncation_notice] else []).

(** Induction on a directory tree, with the hypothesis for every entry of
    a directory. *)
Section NodeInduction.
Variable P : PyFs.node -> Prop.
Hypothesis P_file : forall name, P (File name).
Hypothesis P_dir : forall name m es, Forall P es -> P (Dir name m es).

Fixpoint node_nested_ind (n : PyFs.node) : P n :=
  match n with
  | File name => P_file name
  | Dir name m es =>
      P_dir name m es
        ((fix all (l : list PyFs.node) : Forall P l :=
            match l with
            | [] => Forall_nil P
            | e :: l' => Forall_cons e (node_nested_ind e) (all l')
            end) es)
  end.

End NodeInduction.

(** * Properties *)

#[local] Arguments Nat.leb : simpl never.

(** ** The search loop *)



Lemma scan_kept env ys : forall acc p,
  In p (fst (scan env ys acc)) -> In p acc \/ (In p ys /\ regular env p = true).
Proof.
  induction ys as [|y ys IH]; intros acc p Hin; simpl in Hin.
  - now left.
  - unfold regular.
    destruct (PyFs.is_file (fs env) y) as [[|]|e|c] eqn:Hy; simpl in Hin.
    + assert (Hy' : In p (acc ++ [y]) -> In p acc \/ In p (y :: ys) /\ regular env p = true).
      { intros H. apply in_app_or in H. destruct H as [H|[H|[]]].
        - now left.
        - right. subst. split; [now left|]. unfold regular. now rewrite Hy. }
      destruct (20 <=? List.length (acc ++ [y])).
      * apply Hy'. exact Hin.
      * apply IH in Hin. destruct Hin as [H|[H1 H2]].
        -- apply Hy'. exact H.
        -- right. split; [now right|exact H2].
    + apply IH in Hin. destruct Hin as [H|[H1 H2]]; [now left|].
      right. split; [now right|exact H2].
    + now left.
    + now left.
Qed.

(** The file-system calls raise nothing but their [OSError]. *)
Lemma is_file_outcome fs0 p :
  (exists b, PyFs.is_file fs0 p = Return b)
  \/ exists errno strerror, PyFs.is_file fs0 p = Raise (PyFs.os_error errno strerror p).
Proof.
  unfold PyFs.is_file, PyFs.permission_denied.
  destruct (PyFs.stat fs0 p) as [[|m es]| | |errno strerror]; eauto.
Qed.


Lemma rglob_outcome fs0 p pat :
  (exists ys, PyFs.rglob fs0 p pat = Return ys)
  \/ exists errno strerror, PyFs.rglob fs0 p pat = Raise (PyFs.os_error errno strerror p).
Proof.
  unfold PyFs.rglob, PyFs.permission_denied.
  destruct (PyFs.stat fs0 p) as [[|m es]| | |errno strerror]; eauto.
Qed.

(** The loop ends normally or by the [OSError] of an [is_file]. *)
Lemma scan_ends env ys : forall acc,
  snd (scan env ys acc) = Return tt
  \/ exists errno strerror p,
       snd (scan env ys acc) = Raise (PyFs.os_error errno strerror p).
Proof.
  induction ys as [|y ys IH]; intros acc; simpl.
  - now left.
  - destruct (is_file_outcome (fs env) y) as [[[|] Hy]|(errno & strerror & Hy)];
      rewrite Hy.
    + destruct (20 <=? List.length (acc ++ [y])); simpl; auto.
    + apply IH.
    + right. simpl. eauto.
Qed.

Lemma find_pdf_files_cases env dir l :
  find_pdf_files env dir = Return l ->
  (exists ys, PyFs.rglob (fs env) (search_root env dir) "*.pdf" = Return ys
              /\ l = fst (scan env ys []))
  \/ l = [].
Proof.
  unfold find_pdf_files. intros H.
  destruct (PyFs.rglob _ _ _) as [ys|e|c] eqn:Hg.
  - left. exists ys. split; [reflexivity|].
    destruct (scan env ys []) as [l' ended]. simpl.
    destruct ended as [[]|e|c]; [now inversion H| |discriminate].
    destruct (exn_class e); try discriminate. now inversion H.
  - right. destruct (exn_class e); try discriminate. now inversion H.
  - discriminate.
Qed.

(** The search returns, unless a file-system call raises an [OSError]
    that is not a [PermissionError]. *)
Lemma find_pdf_files_outcome env dir :
  (exists l, find_pdf_files env dir = Return l)
  \/ exists errno strerror p,
       find_pdf_files env dir = Raise (PyFs.os_error errno strerror p)
       /\ PyFs.errno_class errno = OSError.
Proof.
  unfold find_pdf_files.
  assert (Hclass : forall (l : list Path) errno strerror p,
            (exists l',
                match exn_class (PyFs.os_error errno strerror p) with
                | PermissionError => Return l
                | _ => Raise (PyFs.os_error errno strerror p)
                end = Return l')
            \/ exists errno' strerror' p',
                 match exn_class (PyFs.os_error errno strerror p) with
                 | PermissionError => Return l
                 | _ => Raise (PyFs.os_error errno strerror p)
                 end = Raise (PyFs.os_error errno' strerror' p')
                 /\ PyFs.errno_class errno' = OSError).
  { intros l errno strerror p. cbn [exn_class PyFs.os_error].
    unfold PyFs.errno_class at 1 2.
    destruct ((errno =? 13) || (errno =? 1))%bool eqn:He.
    - left. eauto.
    - right. exists errno, strerror, p. split; [reflexivity|].
      unfold PyFs.errno_class. now rewrite He. }
  destruct (rglob_outcome (fs env) (search_root env dir) "*.pdf")
    as [[ys Hg]|(errno & strerror & Hg)]; rewrite Hg.
  - destruct (scan env ys []) as [l ended] eqn:Hs.
    destruct (scan_ends env ys []) as [H|(errno & strerror & p & H)];
      rewrite Hs in H; simpl in H; subst ended.
    + left. eauto.
    + apply Hclass.
  - apply Hclass.
Qed.


(** ** The picklist *)

Lemma select_loop_output files lines : forall out,
  exists t, output_of (select_loop files lines out) = out ++ select_prompt files :: t.
Proof.
  induction lines as [|line rest IH]; intros out; simpl.
  - exists []. reflexivity.
  - destruct (String.eqb _ "q").
    + exists []. reflexivity.
    + destruct (PyStr.int _) as [n|].
      * destruct (_ && _)%bool.
        -- destruct (nth_error _ _); exists []; reflexivity.
        -- destruct (IH ((out ++ [select_prompt files]) ++ [range_message files])) as [t Ht].
           rewrite Ht. exists (range_message files :: select_prompt files :: t).
           rewrite <- !app_assoc. reflexivity.
      * destruct (IH ((out ++ [select_prompt files]) ++ [number_message])) as [t Ht].
        rewrite Ht. exists (number_message :: select_prompt files :: t).
        rewrite <- !app_assoc. reflexivity.
Qed.


Lemma lower_empty s : PyStr.lower s = "" -> s = "".
Proof. destruct s; [reflexivity|discriminate]. Qed.

Lemma lower_char_q a : PyStr.lower_char a = "q"%char -> a = "q"%char \/ a = "Q"%char.
Proof.
  destruct a as [[] [] [] [] [] [] [] []]; vm_compute; intros H;
    try discriminate; auto.
Qed.

Lemma int_of_q s : PyStr.lower s = "q" -> PyStr.int s = None.
Proof.
  destruct s as [|a s']; [discriminate|].
  simpl. intros H. inversion H as [[Ha Hs]].
  apply lower_empty in Hs. subst s'.
  destruct (lower_char_q a Ha); subst a; reflexivity.
Qed.

Lemma select_loop_quit files line rest out :
  PyStr.lower (PyStr.strip line) = "q" ->
  select_loop files (line :: rest) out =
  (Return None, rest, out ++ [select_prompt files]).
Proof.
  intros H. simpl. rewrite H. reflexivity.
Qed.

Lemma select_loop_not_number files line rest out :
  PyStr.lower (PyStr.strip line) <> "q" ->
  PyStr.int (PyStr.strip line) = None ->
  select_loop files (line :: rest) out =
  select_loop files rest (out ++ [select_prompt files; number_message]).
Proof.
  intros Hq Hint. simpl. apply String.eqb_neq in Hq. rewrite Hq, Hint.
  rewrite <- app_assoc. reflexivity.
Qed.

Lemma select_loop_number files line rest out k :
  PyStr.int (PyStr.strip line) = Some k ->
  select_loop files (line :: rest) out =
  if ((0 <=? k - 1)%Z && (k - 1 <? Z.of_nat (List.length files))%Z)%bool
  then match nth_error files (Z.to_nat (k - 1)) with
       | Some f => (Return (Some f), rest, out ++ [select_prompt files])
       | None => (Raise index_out_of_range, rest, out ++ [select_prompt files])
       end
  else select_loop files rest (out ++ [select_prompt files; range_message files]).
Proof.
  intros Hint. simpl.
  destruct (String.eqb _ "q") eqn:Hq.
  - apply String.eqb_eq in Hq. apply int_of_q in Hq. congruence.
  - rewrite Hint. rewrite <- app_assoc. reflexivity.
Qed.

Lemma listing_nth env files : forall i k f,
  nth_error files k = Some f ->
  nth_error (listing env i files) k =
  Some (Print (PyStr.format_2d (i + k) ++ ". " ++ display_path env f)%string).
Proof.
  induction files as [|g files IH]; intros i k f H.
  - destruct k; discriminate.
  - destruct k as [|k]; simpl in *.
    + inversion H. subst. rewrite Nat.add_0_r. reflexivity.
    + rewrite (IH (S i) k f H). replace (i + S k) with (S i + k) by lia.
      reflexivity.
Qed.

Lemma listing_length env files : forall i,
  List.length (listing env i files) = List.length files.
Proof.
  induction files as [|g files IH]; intros i; simpl; [reflexivity|].
  now rewrite IH.
Qed.

Lemma select_from_list_loop env files lines out :
  files <> [] ->
  select_from_list env files lines out =
  select_loop files lines (out ++ picklist_shown env files).
Proof.
  intros Hne. unfold select_from_list, picklist_shown.
  destruct files as [|f files']; [congruence|].
  destruct (20 <=? _); rewrite <- ?app_assoc; simpl; rewrite ?app_nil_r;
    reflexivity.
Qed.

(** *** The number of a line, as printed and as typed *)

Lemma string_of_uint_digits d : all_digits (NilEmpty.string_of_uint d) = true.
Proof. induction d; simpl; try reflexivity; exact IHd. Qed.

Lemma digit_not_space c : PyStr.is_digit c = true -> PyStr.is_space c = false.
Proof.
  destruct c as [[] [] [] [] [] [] [] []]; vm_compute; intros H;
    try discriminate; reflexivity.
Qed.

Lemma rstrip_digits s : all_digits s = true -> PyStr.rstrip s = s.
Proof.
  induction s as [|c s IH]; intros H; [reflexivity|].
  simpl in H. apply andb_true_iff in H. destruct H as [Hc Hs].
  simpl. rewrite (IH Hs). destruct s; [|reflexivity].
  now rewrite (digit_not_space c Hc).
Qed.

Lemma lstrip_digits s : all_digits s = true -> PyStr.lstrip s = s.
Proof.
  destruct s as [|c s]; intros H; [reflexivity|].
  simpl in H. apply andb_true_iff in H. destruct H as [Hc _].
  simpl. now rewrite (digit_not_space c Hc).
Qed.

Lemma strip_digits s : all_digits s = true -> PyStr.strip s = s.
Proof.
  intros H. unfold PyStr.strip. rewrite (lstrip_digits s H). now apply rstrip_digits.
Qed.

Lemma strip_padded n s :
  all_digits s = true -> PyStr.strip (PyStr.spaces n ++ s)%string = s.
Proof.
  intros H. unfold PyStr.strip.
  assert (Hl : PyStr.lstrip (PyStr.spaces n ++ s)%string = PyStr.lstrip s).
  { induction n as [|n IH]; [reflexivity|]. simpl. exact IH. }
  rewrite Hl, (lstrip_digits s H). now apply rstrip_digits.
Qed.

Ltac digit_step IH :=
  cbn [NilEmpty.string_of_uint PyStr.int_digits Nat.of_uint_acc];
  match goal with
  | |- context [PyStr.is_digit ?c] =>
      change (PyStr.is_digit c) with true;
      let v := eval vm_compute in (PyStr.digit_val c) in
      change (PyStr.digit_val c) with v
  end;
  cbv iota;
  match goal with
  | |- PyStr.int_digits _ ?z true = Some (Z.of_nat (Nat.of_uint_acc _ ?m)) =>
      replace z with (Z.of_nat m) by (rewrite Nat.tail_mul_spec; lia);
      apply IH; right; reflexivity
  end.

Lemma int_digits_of_uint d : forall a prev,
  d <> Decimal.Nil \/ prev = true ->
  PyStr.int_digits (NilEmpty.string_of_uint d) (Z.of_nat a) prev =
  Some (Z.of_nat (Nat.of_uint_acc d a)).
Proof.
  induction d; intros a prev Hd.
  - destruct Hd as [Hd|Hd]; [congruence|]. subst prev. reflexivity.
  - digit_step IHd.
  - digit_step IHd.
  - digit_step IHd.
  - digit_step IHd.
  - digit_step IHd.
  - digit_step IHd.
  - digit_step IHd.
  - digit_step IHd.
  - digit_step IHd.
  - digit_step IHd.
Qed.

Lemma to_uint_not_nil n : Nat.to_uint n <> Decimal.Nil.
Proof.
  intros H. pose proof (DecimalNat.Unsigned.of_to n) as Hn. rewrite H in Hn.
  simpl in Hn. subst n. discriminate.
Qed.

(** [int] reads back the decimal that [str] writes. *)
Lemma int_of_digits_string d :
  d <> Decimal.Nil ->
  PyStr.int (NilEmpty.string_of_uint d) = Some (Z.of_nat (Nat.of_uint d)).
Proof.
  intros Hd. unfold PyStr.int.
  rewrite (strip_digits _ (string_of_uint_digits d)).
  pose proof (int_digits_of_uint d 0 false (or_introl Hd)) as H.
  change (Z.of_nat 0) with 0%Z in H. unfold Nat.of_uint. rewrite <- H.
  destruct d; try congruence; reflexivity.
Qed.

Lemma int_str_of_nat n : PyStr.int (PyStr.str_of_nat n) = Some (Z.of_nat n).
Proof.
  unfold PyStr.str_of_nat. rewrite int_of_digits_string by apply to_uint_not_nil.
  now rewrite DecimalNat.Unsigned.of_to.
Qed.

Lemma strip_format_2d n : PyStr.strip (PyStr.format_2d n) = PyStr.str_of_nat n.
Proof.
  unfold PyStr.format_2d. apply strip_padded. apply string_of_uint_digits.
Qed.

Lemma int_format_2d n : PyStr.int (PyStr.format_2d n) = Some (Z.of_nat n).
Proof.
  rewrite <- (int_str_of_nat n). unfold PyStr.int.
  rewrite strip_format_2d. unfold PyStr.str_of_nat.
  rewrite (strip_digits _ (string_of_uint_digits _)). reflexivity.
Qed.

(** C9.  At the picklist over a non-empty candidate list the entries are
    printed numbered from 1: line k, counting from 0, is the number k+1
    right-aligned in a field of width 2 (so [ 1], [ 2], ... [20] for the
    lists a search can produce), a dot, a space and the path as displayed;
    [int] reads that number back as k+1.  A line that [int] reads as a
    number [k] with 1 <= k <= n returns the k-th candidate; a number out
    of that range, or a line that is not a number, prints a corrective
    message and the loop prompts again on the next line; [q] (in either
    case) returns no selection. *)
Theorem picklist_selection :
  forall env pdf_files line rest out,
    pdf_files <> [] ->
    let n := Z.of_nat (List.length pdf_files) in
    let choice := PyStr.strip line in
    let shown :=
      out ++ [Print (nl ++ "Found PDF files:")%string]
          ++ listing env 1 pdf_files
          ++ (if 20 <=? List.length pdf_files then [truncation_notice] else []) in
    (forall k f, nth_error pdf_files k = Some f ->
       nth_error (listing env 1 pdf_files) k =
       Some (Print (PyStr.format_2d (1 + k) ++ ". " ++ display_path env f)%string)
       /\ PyStr.int (PyStr.format_2d (1 + k)) = Some (Z.of_nat (1 + k))
       /\ (k < 20 ->
           PyStr.format_2d (1 + k) =
           nth k [ " 1"; " 2"; " 3"; " 4"; " 5"; " 6"; " 7"; " 8"; " 9"; "10";
                   "11"; "12"; "13"; "14"; "15"; "16"; "17"; "18"; "19"; "20" ] ""))
    /\ List.length (listing env 1 pdf_files) = List.length pdf_files
    /\ (forall k, PyStr.int choice = Some k -> (1 <= k <= n)%Z ->
          exists f, nth_error pdf_files (Z.to_nat (k - 1)) = Some f /\
            select_from_list env pdf_files (line :: rest) out =
            (Return (Some f), rest, shown ++ [select_prompt pdf_files]))
    /\ (forall k, PyStr.int choice = Some k -> (k < 1 \/ n < k)%Z ->
          select_from_list env pdf_files (line :: rest) out =
          select_loop pdf_files rest
            (shown ++ [select_prompt pdf_files;
                       Print ("Please enter a number between 1 and "
                              ++ PyStr.str_of_nat (List.length pdf_files))%string]))
    /\ (PyStr.int choice = None -> PyStr.lower choice <> "q" ->
          select_from_list env pdf_files (line :: rest) out =
          select_loop pdf_files rest
            (shown ++ [select_prompt pdf_files;
                       Print "Please enter a valid number or 'q' to quit"]))
    /\ (PyStr.lower choice = "q" ->
          select_from_list env pdf_files (line :: rest) out =
          (Return None, rest, shown ++ [select_prompt pdf_files]))
    /\ (forall lines out', exists t,
          output_of (select_loop pdf_files lines out') =
          out' ++ select_prompt pdf_files :: t).
Proof.
  intros env pdf_files line rest out Hne n choice shown.
  assert (Hshown : shown = out ++ picklist_shown env pdf_files) by reflexivity.
  clearbody shown. subst shown.
  repeat apply conj.
  - intros k f H. split; [apply listing_nth; exact H|].
    split; [apply int_format_2d|].
    intros Hk. do 20 (destruct k as [|k]; [reflexivity|]). exfalso. lia.
  - apply listing_length.
  - intros k Hint Hk.
    destruct (nth_error pdf_files (Z.to_nat (k - 1))) as [f|] eqn:Hnth.
    + exists f. split; [reflexivity|].
      rewrite select_from_list_loop by exact Hne.
      rewrite (select_loop_number _ _ _ _ k Hint). rewrite Hnth.
      replace ((0 <=? k - 1)%Z && (k - 1 <? Z.of_nat (List.length pdf_files))%Z)%bool
        with true; [reflexivity|].
      symmetry. apply andb_true_iff. split; [apply Z.leb_le|apply Z.ltb_lt]; subst n; lia.
    + apply nth_error_None in Hnth. subst n. lia.
  - intros k Hint Hk.
    rewrite select_from_list_loop by exact Hne.
    rewrite (select_loop_number _ _ _ _ k Hint).
    replace ((0 <=? k - 1)%Z && (k - 1 <? Z.of_nat (List.length pdf_files))%Z)%bool
      with false; [reflexivity|].
    symmetry. apply andb_false_iff. subst n.
    destruct Hk; [left; apply Z.leb_gt|right; apply Z.ltb_ge]; lia.
  - intros Hint Hq.
    rewrite select_from_list_loop by exact Hne.
    apply select_loop_not_number; assumption.
  - intros Hq.
    rewrite select_from_list_loop by exact Hne.
    apply select_loop_quit; assumption.
  - intros lines out'. apply select_loop_output.
Qed.

(** ** Manual entry *)

Lemma manual_accept env line rest out :
  let pdf_file := PyPath.parse (clean_path env line) in
  PyFs.exists_ (fs env) pdf_file = Return true ->
  PyStr.lower (PyPath.suffix pdf_file) = ".pdf" ->
  get_manual_path env (line :: rest) out =
  (Return (Some pdf_file), rest, out ++ [tip; path_prompt]).
Proof.
  intros pdf_file Hex Hsuf. cbn [get_manual_path].
  fold pdf_file. rewrite Hex, Hsuf. reflexivity.
Qed.

Lemma manual_not_pdf env line rest out :
  let pdf_file := PyPath.parse (clean_path env line) in
  PyFs.exists_ (fs env) pdf_file = Return true ->
  PyStr.lower (PyPath.suffix pdf_file) <> ".pdf" ->
  get_manual_path env (line :: rest) out =
  get_manual_path env rest
    (out ++ [tip; path_prompt; not_pdf_message (clean_path env line)]).
Proof.
  intros pdf_file Hex Hsuf. cbn [get_manual_path].
  fold pdf_file. rewrite Hex. apply String.eqb_neq in Hsuf. rewrite Hsuf.
  cbn [negb]. rewrite <- app_assoc. reflexivity.
Qed.

Lemma manual_missing env line answer rest out :
  let pdf_file := PyPath.parse (clean_path env line) in
  let asked := out ++ [tip; path_prompt] ++ missing_messages env pdf_file
                   ++ [retry_prompt] in
  PyFs.exists_ (fs env) pdf_file = Return false ->
  get_manual_path env (line :: answer :: rest) out =
  if String.eqb (PyStr.lower (PyStr.strip answer)) "y"
  then get_manual_path env rest asked
  else (Return None, rest, asked).
Proof.
  intros pdf_file asked Hex. cbn [get_manual_path].
  fold pdf_file. rewrite Hex.
  replace ((out ++ [tip; path_prompt]) ++ missing_messages env pdf_file ++ [retry_prompt])
    with asked by (unfold asked; rewrite <- app_assoc; reflexivity).
  destruct (String.eqb _ "y"); reflexivity.
Qed.

(** ** The path [main] works on *)

Lemma main_pdf_path_written env arg w r w' :
  main_pdf_path env arg w = (r, w') -> written w' = written w.
Proof.
  unfold main_pdf_path. intros H.
  destruct (match arg with Some a => negb (String.eqb a "") | None => false end).
  - destruct (PyFs.exists_ _ _) as [[|]|e|c].
    + destruct (negb _); inversion H; reflexivity.
    + inversion H; reflexivity.
    + inversion H; reflexivity.
    + inversion H; reflexivity.
  - destruct (get_pdf_path _ _ _) as [[[[p|]|e|c] lines] out];
      inversion H; reflexivity.
Qed.

Lemma main_pdf_path_argument env arg w :
  arg <> "" ->
  main_pdf_path env (Some arg) w =
  match PyFs.exists_ (fs env) (PyPath.parse arg) with
  | Return false =>
      (SysExit 1%Z,
       mkWorld (stdin w)
               (stdout w ++ [Print ("Error: File '" ++ arg ++ "' does not exist.")%string])
               (written w))
  | Return true =>
      if negb (String.eqb (PyStr.lower (PyPath.suffix (PyPath.parse arg))) ".pdf")
      then (SysExit 1%Z,
            mkWorld (stdin w)
                    (stdout w ++ [Print ("Error: '" ++ arg ++ "' is not a PDF file.")%string])
                    (written w))
      else (Return (PyPath.parse arg), w)
  | Raise e => (Raise e, w)
  | SysExit c => (SysExit c, w)
  end.
Proof.
  intros Hne. unfold main_pdf_path. apply String.eqb_neq in Hne. rewrite Hne.
  reflexivity.
Qed.

Lemma main_pdf_path_interactive env arg w :
  arg = None \/ arg = Some "" ->
  main_pdf_path env arg w =
  match get_pdf_path env (stdin w) (stdout w) with
  | (Return None, lines, out) =>
      (SysExit 0%Z, mkWorld lines (out ++ [Print "No file selected. Exiting."]) (written w))
  | (Return (Some pdf_path), lines, out) =>
      (Return pdf_path, mkWorld lines out (written w))
  | (Raise e, lines, out) => (Raise e, mkWorld lines out (written w))
  | (SysExit c, lines, out) => (SysExit c, mkWorld lines out (written w))
  end.
Proof.
  intros [H|H]; subst arg; reflexivity.
Qed.

Lemma main_unfold env arg w :
  main env arg w =
  match main_pdf_path env arg (mkWorld (stdin w) (stdout w ++ banner) (written w)) with
  | (Return pdf_path, w') => main_convert env pdf_path w'
  | (Raise e, w') => (Raise e, w')
  | (SysExit c, w') => (SysExit c, w')
  end.
Proof. reflexivity. Qed.

Lemma parse_args_single arg :
  PyStr.startswith arg "-" = false ->
  Argparse.parse_args [arg] = Argparse.Namespace (Some arg).
Proof.
  intros H. destruct arg as [|c r]; [reflexivity|].
  assert (Hc : Ascii.eqb c "-" = false).
  { unfold PyStr.startswith in H. simpl in H.
    destruct (Ascii.ascii_dec "-" c) as [<-|Hne]; [destruct r; discriminate|].
    apply Ascii.eqb_neq. congruence. }
  unfold Argparse.parse_args.
  cbn [Argparse.split_at_dashes String.eqb]. rewrite Hc.
  cbn [map Argparse.classify]. rewrite Hc. reflexivity.
Qed.

Lemma parse_args_after_dashes arg :
  Argparse.parse_args ["--"; arg] = Argparse.Namespace (Some arg).
Proof. reflexivity. Qed.

Lemma main_with_arguments_parsed env argv pdf_file w :
  Argparse.parse_args argv = Argparse.Namespace pdf_file ->
  main_with_arguments env argv w = main env pdf_file w.
Proof. intros H. unfold main_with_arguments. now rewrite H. Qed.

(** C3, as stated, fails for two kinds of argument.  The empty argument
    reaches the program, where [args.pdf_file] is falsy: the menu is
    shown, the program prompts, and here the user cancels and the process
    exits with status 0.  An argument that starts with a dash, such as
    [-missing.pdf], is refused by the argument parser as an option it
    does not have: the process exits with status 2 before the program
    prints anything. *)
Lemma argument_not_taken_as_a_path :
  Argparse.parse_args [""] = Argparse.Namespace (Some "")
  /\ PyStr.lower (PyPath.suffix (PyPath.parse "")) <> ".pdf"
  /\ fst (main_with_arguments Example.env [""]
            (Example.fresh ["1"; "nowhere.pdf"; "n"])) = SysExit 0%Z
  /\ existsb is_prompt
       (stdout (snd (main_with_arguments Example.env [""]
                       (Example.fresh ["1"; "nowhere.pdf"; "n"])))) = true
  /\ stdin (snd (main_with_arguments Example.env [""]
                   (Example.fresh ["1"; "nowhere.pdf"; "n"]))) = []
  /\ PyFs.exists_ (fs Example.env) (PyPath.parse "-missing.pdf") = Return false
  /\ main_with_arguments Example.env ["-missing.pdf"] (Example.fresh [])
     = (SysExit 2%Z, Example.fresh []).
Proof.
  vm_compute. repeat split; try reflexivity. discriminate.
Qed.

(** C3, amended.  If a path is supplied as the command-line argument and
    reaches the program as [args.pdf_file], not empty (the argument
    parser takes a single argument that does not start with a dash, and
    any single argument after [--], as that value), and the path does not
    exist, or exists without a [.pdf] suffix, the program prints its
    error line after its banner and exits with status 1: no prompt is
    printed, no input is read and no file is written. *)
Theorem invalid_argument_exits_1 :
  (forall env argv arg w,
      Argparse.parse_args argv = Argparse.Namespace (Some arg) ->
      arg <> "" ->
      (PyFs.exists_ (fs env) (PyPath.parse arg) = Return false ->
       main_with_arguments env argv w =
       (SysExit 1%Z,
        mkWorld (stdin w)
                (stdout w ++ banner
                 ++ [Print ("Error: File '" ++ arg ++ "' does not exist.")%string])
                (written w)))
      /\ (PyFs.exists_ (fs env) (PyPath.parse arg) = Return true ->
          PyStr.lower (PyPath.suffix (PyPath.parse arg)) <> ".pdf" ->
          main_with_arguments env argv w =
          (SysExit 1%Z,
           mkWorld (stdin w)
                   (stdout w ++ banner
                    ++ [Print ("Error: '" ++ arg ++ "' is not a PDF file.")%string])
                   (written w))))
  /\ (forall arg, PyStr.startswith arg "-" = false ->
        Argparse.parse_args [arg] = Argparse.Namespace (Some arg))
  /\ (forall arg, Argparse.parse_args ["--"; arg] = Argparse.Namespace (Some arg)).
Proof.
  split; [|split].
  - intros env argv arg w Hparse Hne.
    rewrite (main_with_arguments_parsed _ _ _ _ Hparse), main_unfold,
      (main_pdf_path_argument _ _ _ Hne).
    split.
    + intros Hex. rewrite Hex.
      cbn [stdin stdout written]. rewrite <- app_assoc. reflexivity.
    + intros Hex Hsuf. rewrite Hex.
      apply String.eqb_neq in Hsuf. rewrite Hsuf.
      cbn [negb stdin stdout written]. rewrite <- app_assoc. reflexivity.
  - apply parse_args_single.
  - apply parse_args_after_dashes.
Qed.

Lemma invalid_argument_exits_1_witness :
  main_with_arguments Example.env ["missing.pdf"] (Example.fresh ["1"; "a.pdf"]) =
  (SysExit 1%Z,
   mkWorld ["1"; "a.pdf"]
           [ Print "PDF to Markdown Extractor";
             Print "------------------------------";
             Print "Error: File 'missing.pdf' does not exist." ]
           [])
  /\ main_with_arguments Example.env ["--"; "-notes.txt"] (Example.fresh []) =
     (SysExit 1%Z,
      mkWorld []
              [ Print "PDF to Markdown Extractor";
                Print "------------------------------";
                Print "Error: File '-notes.txt' does not exist." ]
              []).
Proof.
  destruct invalid_argument_exits_1 as (Hexit & Hsingle & Hdashes).
  split.
  - destruct (Hexit Example.env ["missing.pdf"] "missing.pdf"
                (Example.fresh ["1"; "a.pdf"])) as [Hmissing _].
    + apply Hsingle. reflexivity.
    + discriminate.
    + rewrite Hmissing by reflexivity. reflexivity.
  - destruct (Hexit Example.env ["--"; "-notes.txt"] "-notes.txt"
                (Example.fresh [])) as [Hmissing _].
    + apply Hdashes.
    + discriminate.
    + rewrite Hmissing by reflexivity. reflexivity.
Defined.

(** ** Extraction *)

(** C5.  If the extraction library raises an exception for the resolved
    path, of whatever class and with whatever message,
    [extract_pdf_to_markdown] catches it and prints that message after
    [Error extracting PDF: ], and [main] exits with status 1 straight
    after: the output ends with the two lines of the extraction step, and
    the files written are those written before the run (the writer is not
    reached). *)
Theorem extraction_failure_exits_1 :
  forall env arg w pdf_path w1 cls message,
    main_pdf_path env arg (mkWorld (stdin w) (stdout w ++ banner) (written w))
      = (Return pdf_path, w1) ->
    to_markdown env (PyPath.str pdf_path) = Raise (mkExn cls message) ->
    extract_pdf_to_markdown env pdf_path (stdout w1) =
      (Return None,
       stdout w1 ++ [ Print ("Extracting text from: " ++ PyPath.str pdf_path)%string;
                      Print ("Error extracting PDF: " ++ message)%string ])
    /\ main env arg w =
       (SysExit 1%Z,
        mkWorld (stdin w1)
                (stdout w1 ++
                 [ Print ("Extracting text from: " ++ PyPath.str pdf_path)%string;
                   Print ("Error extracting PDF: " ++ message)%string ])
                (written w))
    /\ exit_status (fst (main env arg w)) = 1%Z
    /\ written (snd (main env arg w)) = written w.
Proof.
  intros env arg w pdf_path w1 cls message Hpath Hraise.
  assert (Hx : extract_pdf_to_markdown env pdf_path (stdout w1) =
    (Return None,
     stdout w1 ++ [ Print ("Extracting text from: " ++ PyPath.str pdf_path)%string;
                    Print ("Error extracting PDF: " ++ message)%string ])).
  { unfold extract_pdf_to_markdown. rewrite Hraise. rewrite <- app_assoc. reflexivity. }
  assert (Hm : main env arg w =
    (SysExit 1%Z,
     mkWorld (stdin w1)
             (stdout w1 ++
              [ Print ("Extracting text from: " ++ PyPath.str pdf_path)%string;
                Print ("Error extracting PDF: " ++ message)%string ])
             (written w))).
  { rewrite main_unfold, Hpath. unfold main_convert. rewrite Hx.
    apply main_pdf_path_written in Hpath. cbn [written] in Hpath.
    rewrite Hpath. reflexivity. }
  rewrite Hm. repeat split; assumption || reflexivity.
Qed.

Lemma extraction_failure_exits_1_witness :
  main Example.env (Some "docs/broken.pdf") (Example.fresh []) =
  (SysExit 1%Z,
   mkWorld []
           [ Print "PDF to Markdown Extractor";
             Print "------------------------------";
             Print "Extracting text from: docs/broken.pdf";
             Print "Error extracting PDF: cannot open broken document" ]
           []).
Proof.
  destruct (extraction_failure_exits_1 Example.env (Some "docs/broken.pdf")
              (Example.fresh []) (PyPath.parse "docs/broken.pdf")
              (mkWorld [] banner [])
              (OtherException "FileDataError") "cannot open broken document")
    as (_ & Hm & _ & _).
  - reflexivity.
  - reflexivity.
  - rewrite Hm. reflexivity.
Defined.

(** ** The menu *)

Lemma option_loop_manual env line rest out :
  PyStr.strip line = "1" ->
  option_loop env (line :: rest) out =
  get_manual_path env rest (out ++ [option_prompt]).
Proof.
  intros H. cbn [option_loop]. rewrite H. reflexivity.
Qed.

Lemma option_loop_home env line rest out files :
  PyStr.strip line = "2" ->
  find_pdf_files env None = Return files ->
  files <> [] ->
  option_loop env (line :: rest) out =
  select_from_list env files rest (out ++ [option_prompt]).
Proof.
  intros H Hfind Hne. cbn [option_loop]. rewrite H, Hfind.
  destruct files; [congruence|reflexivity].
Qed.

Lemma option_loop_directory env line line' rest out files :
  PyStr.strip line = "3" ->
  PyFs.exists_ (fs env) (PyPath.parse (clean_dir line')) = Return true ->
  find_pdf_files env (Some (clean_dir line')) = Return files ->
  files <> [] ->
  option_loop env (line :: line' :: rest) out =
  select_from_list env files rest (out ++ [option_prompt; directory_prompt]).
Proof.
  intros H Hex Hfind Hne. cbn [option_loop]. rewrite H.
  cbn [String.eqb Ascii.eqb Bool.eqb]. rewrite Hex, Hfind.
  destruct files; [congruence|]. rewrite <- app_assoc. reflexivity.
Qed.

(** C6.  Cancelling yields no selection, exit status 0 and no output file:
    [q] at the picklist and a declined retry at manual entry both return
    [None], which [get_pdf_path] hands on unchanged (the picklist and the
    manual entry are its last calls), and on [None] [main] prints its
    notice and exits with status 0 having written nothing; a [None] is a
    returned value, not an exception. *)
Theorem cancel_exits_with_status_0 :
  forall env,
    (forall files line rest out,
        files <> [] ->
        PyStr.lower (PyStr.strip line) = "q" ->
        outcome_of (select_from_list env files (line :: rest) out) = Return None
        /\ input_left (select_from_list env files (line :: rest) out) = rest)
    /\ (forall line answer rest out,
          PyFs.exists_ (fs env) (PyPath.parse (clean_path env line)) = Return false ->
          PyStr.lower (PyStr.strip answer) <> "y" ->
          outcome_of (get_manual_path env (line :: answer :: rest) out) = Return None
          /\ input_left (get_manual_path env (line :: answer :: rest) out) = rest)
    /\ (forall line rest out,
          PyStr.strip line = "1" ->
          get_pdf_path env (line :: rest) out =
          get_manual_path env rest (out ++ menu ++ [option_prompt]))
    /\ (forall line rest out files,
          PyStr.strip line = "2" ->
          find_pdf_files env None = Return files -> files <> [] ->
          get_pdf_path env (line :: rest) out =
          select_from_list env files rest (out ++ menu ++ [option_prompt]))
    /\ (forall line line' rest out files,
          PyStr.strip line = "3" ->
          PyFs.exists_ (fs env) (PyPath.parse (clean_dir line')) = Return true ->
          find_pdf_files env (Some (clean_dir line')) = Return files -> files <> [] ->
          get_pdf_path env (line :: line' :: rest) out =
          select_from_list env files rest
            (out ++ menu ++ [option_prompt; directory_prompt]))
    /\ (forall arg w lines out,
          arg = None \/ arg = Some "" ->
          get_pdf_path env (stdin w) (stdout w ++ banner) = (Return None, lines, out) ->
          main env arg w =
          (SysExit 0%Z,
           mkWorld lines (out ++ [Print "No file selected. Exiting."]) (written w))
          /\ exit_status (fst (main env arg w)) = 0%Z
          /\ written (snd (main env arg w)) = written w).
Proof.
  intros env. repeat apply conj.
  - intros files line rest out Hne Hq.
    rewrite select_from_list_loop by exact Hne.
    rewrite select_loop_quit by exact Hq. split; reflexivity.
  - intros line answer rest out Hex Hn.
    rewrite (manual_missing _ _ _ _ _ Hex).
    apply String.eqb_neq in Hn. rewrite Hn. split; reflexivity.
  - intros line rest out H. unfold get_pdf_path.
    rewrite option_loop_manual by exact H. rewrite <- app_assoc. reflexivity.
  - intros line rest out files H Hfind Hne. unfold get_pdf_path.
    rewrite (option_loop_home _ _ _ _ files) by assumption.
    rewrite <- app_assoc. reflexivity.
  - intros line line' rest out files H Hex Hfind Hne. unfold get_pdf_path.
    rewrite (option_loop_directory _ _ _ _ _ files) by assumption.
    rewrite <- app_assoc. reflexivity.
  - intros arg w lines out Harg Hnone.
    assert (Hm : main env arg w =
      (SysExit 0%Z,
       mkWorld lines (out ++ [Print "No file selected. Exiting."]) (written w))).
    { rewrite main_unfold, (main_pdf_path_interactive _ _ _ Harg).
      cbn [stdin stdout written]. rewrite Hnone. reflexivity. }
    rewrite Hm. repeat split; reflexivity.
Qed.

Lemma cancel_exits_with_status_0_witness :
  fst (main Example.env None (Example.fresh ["3"; "'/many'"; "Q"])) = SysExit 0%Z
  /\ written (snd (main Example.env None (Example.fresh ["3"; "'/many'"; "Q"]))) = []
  /\ fst (main Example.env None (Example.fresh ["1"; "nowhere.pdf"; "n"])) = SysExit 0%Z.
Proof.
  destruct (cancel_exits_with_status_0 Example.env) as (_ & _ & _ & _ & _ & H).
  edestruct (H None (Example.fresh ["3"; "'/many'"; "Q"])) as (Hm & _ & Hw);
    [left; reflexivity | vm_compute; reflexivity | ].
  edestruct (H None (Example.fresh ["1"; "nowhere.pdf"; "n"])) as (Hm' & _ & _);
    [left; reflexivity | vm_compute; reflexivity | ].
  rewrite Hm, Hm'. repeat split; reflexivity.
Defined.


Lemma picklist_selection_witness :
  select_from_list Example.env
    [ PyPath.parse "/home/u/a.pdf"; PyPath.parse "/srv/public/manual.pdf";
      PyPath.parse "/many/3.pdf" ]
    [" 2 "; "q"] []
  = (Return (Some (PyPath.parse "/srv/public/manual.pdf")), ["q"],
     [ Print (nl ++ "Found PDF files:")%string;
       Print " 1. ~/a.pdf";
       Print " 2. /srv/public/manual.pdf";
       Print " 3. /many/3.pdf";
       Prompt (nl ++ "Select a file (1-3) or 'q' to quit: ")%string ])
  /\ nth_error
       (listing Example.env 1
          [ PyPath.parse "/home/u/a.pdf"; PyPath.parse "/srv/public/manual.pdf";
            PyPath.parse "/many/3.pdf" ]) 2
     = Some (Print " 3. /many/3.pdf").
Proof.
  destruct (picklist_selection Example.env
              [ PyPath.parse "/home/u/a.pdf"; PyPath.parse "/srv/public/manual.pdf";
                PyPath.parse "/many/3.pdf" ]
              " 2 " ["q"] []) as (Hline & _ & Hpick & _).
  - discriminate.
  - split.
    + destruct (Hpick 2%Z) as (f & Hf & Hsel); [reflexivity | simpl; lia |].
      rewrite Hsel. inversion Hf. reflexivity.
    + destruct (Hline 2 (PyPath.parse "/many/3.pdf")) as (Hnth & _ & _);
        [reflexivity|].
      rewrite Hnth. reflexivity.
Defined.

(** ** What the search yields *)

Lemma append_length a b :
  String.length (a ++ b)%string = String.length a + String.length b.
Proof. induction a as [|c a IH]; simpl; [reflexivity|now rewrite IH]. Qed.

Lemma append_nil_r a : (a ++ "")%string = a.
Proof. induction a as [|c a IH]; simpl; [reflexivity|now rewrite IH]. Qed.

Lemma append_assoc a b c : ((a ++ b) ++ c)%string = (a ++ b ++ c)%string.
Proof. induction a as [|x a IH]; simpl; [reflexivity|now rewrite IH]. Qed.

(** Two suffixes of one string that have the same length are equal. *)
Lemma append_same_length_suffix a : forall b x y,
  String.length x = String.length y ->
  (a ++ x)%string = (b ++ y)%string -> a = b /\ x = y.
Proof.
  induction a as [|c a IH]; intros [|d b] x y Hlen H; simpl in H.
  - now split.
  - subst x. simpl in Hlen. rewrite append_length in Hlen. lia.
  - subst y. simpl in Hlen. rewrite append_length in Hlen. lia.
  - inversion H. subst d. destruct (IH b x y Hlen H2). subst. now split.
Qed.

Lemma matches_literal lit : forall s,
  Fnmatch.matches (map Fnmatch.Lit (list_ascii_of_string lit)) s = true <-> s = lit.
Proof.
  induction lit as [|c lit IH]; intros s; simpl.
  - apply String.eqb_eq.
  - destruct s as [|a s]; [split; discriminate|].
    rewrite andb_true_iff, IH, Ascii.eqb_eq. split.
    + intros [-> ->]. reflexivity.
    + intros H. inversion H. now split.
Qed.

Lemma matches_star pat s :
  Fnmatch.matches (Fnmatch.Star :: pat) s = true <->
  exists pre suf, s = (pre ++ suf)%string /\ Fnmatch.matches pat suf = true.
Proof.
  induction s as [|a s IH].
  - simpl. rewrite orb_false_r. split.
    + intros H. exists "", "". now split.
    + intros (pre & suf & Heq & H). destruct pre; [|discriminate].
      simpl in Heq. now subst suf.
  - change (Fnmatch.matches (Fnmatch.Star :: pat) (String a s))
      with (Fnmatch.matches pat (String a s)
            || Fnmatch.matches (Fnmatch.Star :: pat) s).
    rewrite orb_true_iff, IH. split.
    + intros [H|(pre & suf & Heq & H)].
      * exists "", (String a s). now split.
      * exists (String a pre), suf. subst s. now split.
    + intros (pre & suf & Heq & H). destruct pre as [|c pre]; simpl in Heq.
      * left. now subst suf.
      * right. inversion Heq. subst. now exists pre, suf.
Qed.

(** The pattern of the search matches exactly the names that end in the
    lower-case [.pdf]. *)
Lemma fnmatch_pdf name :
  Fnmatch.fnmatchcase name "*.pdf" = true <-> exists stem, name = (stem ++ ".pdf")%string.
Proof.
  unfold Fnmatch.fnmatchcase.
  change (Fnmatch.tokens "*.pdf")
    with (Fnmatch.Star :: map Fnmatch.Lit (list_ascii_of_string ".pdf")).
  rewrite matches_star. split.
  - intros (pre & suf & -> & H). apply matches_literal in H. subst. now exists pre.
  - intros [stem ->]. exists stem, ".pdf". split; [reflexivity|].
    now apply matches_literal.
Qed.

Lemma name_child path name : PyPath.name (PyPath.child path name) = name.
Proof. unfold PyPath.name, PyPath.child. simpl. apply last_last. Qed.

Lemma select_matching_name pat path es p :
  In p (PyFs.select_matching pat path es) ->
  Fnmatch.fnmatchcase (PyPath.name p) pat = true.
Proof.
  unfold PyFs.select_matching. intros H.
  apply in_map_iff in H. destruct H as (nm & <- & Hin).
  apply filter_In in Hin. rewrite name_child. apply Hin.
Qed.

(** Every path the recursive selector yields has a matching name. *)
Lemma walk_name pat n : forall path p,
  In p (PyFs.walk pat path n) -> Fnmatch.fnmatchcase (PyPath.name p) pat = true.
Proof.
  induction n as [name|name m es IH] using node_nested_ind; intros path p Hin.
  - destruct Hin.
  - simpl in Hin. destruct (PyFs.readable m); [|destruct Hin].
    apply in_app_or in Hin. destruct Hin as [Hin|Hin].
    + eapply select_matching_name; eauto.
    + destruct (PyFs.searchable m); [|destruct Hin].
      induction es as [|e es IHes]; [destruct Hin|].
      inversion IH as [|? ? He Hes]; subst.
      apply in_app_or in Hin. destruct Hin as [Hin|Hin].
      * destruct e as [|nm m' es']; [destruct Hin|].
        eapply He; eauto.
      * apply IHes; assumption.
Qed.

Lemma rglob_name fs0 root pat ys p :
  PyFs.rglob fs0 root pat = Return ys -> In p ys ->
  Fnmatch.fnmatchcase (PyPath.name p) pat = true.
Proof.
  unfold PyFs.rglob. intros H Hin.
  destruct (PyFs.stat fs0 root) as [[|m es]| | |errno strerror]; inversion H; subst.
  - destruct Hin.
  - apply (walk_name pat (Dir (PyPath.name root) m es) root p). exact Hin.
  - destruct Hin.
Qed.

Lemma regular_is_file env p :
  regular env p = true <-> PyFs.is_file (fs env) p = Return true.
Proof.
  unfold regular. destruct (PyFs.is_file (fs env) p) as [[|]|e|c]; split;
    intros H; try reflexivity; try discriminate.
Qed.

(** What the search returns: regular files whose names match. *)
Lemma find_pdf_files_kept env dir l p :
  find_pdf_files env dir = Return l -> In p l ->
  PyFs.is_file (fs env) p = Return true
  /\ Fnmatch.fnmatchcase (PyPath.name p) "*.pdf" = true.
Proof.
  intros H Hin.
  destruct (find_pdf_files_cases env dir l H) as [(ys & Hg & H')|H']; subst l;
    [|destruct Hin].
  apply scan_kept in Hin. destruct Hin as [[]|[Hin Hreg]].
  split; [now apply regular_is_file|]. eapply rglob_name; eauto.
Qed.

Lemma scan_stops env before after pdf_file e : forall acc,
  forallb (answers env) before = true ->
  PyFs.is_file (fs env) pdf_file = Raise e ->
  List.length (acc ++ filter (regular env) before) < 20 ->
  scan env (before ++ pdf_file :: after) acc =
  (acc ++ filter (regular env) before, Raise e).
Proof.
  induction before as [|b before IH]; intros acc Hans Hraise Hlen; simpl.
  - rewrite Hraise, app_nil_r. reflexivity.
  - simpl in Hans. apply andb_true_iff in Hans. destruct Hans as [Hb Hans].
    unfold answers in Hb. simpl in Hlen. unfold regular in Hlen |- *.
    destruct (PyFs.is_file (fs env) b) as [[|]|e'|c]; try discriminate.
    + assert (Hcap : (20 <=? List.length (acc ++ [b])) = false).
      { apply Nat.leb_gt. rewrite !length_app in *. simpl in *. lia. }
      rewrite Hcap. rewrite IH; try assumption.
      * rewrite <- app_assoc. reflexivity.
      * rewrite <- app_assoc. exact Hlen.
    + apply IH; assumption.
Qed.

(** A directory that cannot be listed yields nothing; the traversal of
    a directory that can be listed and searched is its own matches, then
    the traversals of its entries in order. *)
Lemma walk_unlistable pat path name s es :
  PyFs.walk pat path (Dir name (mkPerms false s) es) = [].
Proof. reflexivity. Qed.

Lemma walk_open pat path name es :
  PyFs.walk pat path (Dir name (mkPerms true true) es) =
  PyFs.select_matching pat path es
  ++ flat_map (fun e => PyFs.walk pat (PyPath.child path (PyFs.node_name e)) e) es.
Proof.
  cbn [PyFs.walk PyFs.readable PyFs.searchable]. f_equal.
  induction es as [|e es IH]; [reflexivity|].
  cbn [flat_map]. rewrite <- IH. destruct e; reflexivity.
Qed.

(** C8, as stated, fails: under [/srv] the entry of the directory without
    search permission makes [is_file] raise, the search returns what it had
    (nothing), and the regular file [public/manual.pdf], which the
    traversal would have yielded next, is never examined. *)
Lemma search_abandoned_at_permission_error :
  PyFs.rglob (fs Example.env) (PyPath.parse "/srv") "*.pdf" =
    Return [ mkPath "/" ["srv"; "locked"; "secret.pdf"];
             mkPath "/" ["srv"; "public"; "manual.pdf"] ]
  /\ PyFs.is_file (fs Example.env) (mkPath "/" ["srv"; "locked"; "secret.pdf"])
     = Raise (mkExn PermissionError
                    "[Errno 13] Permission denied: '/srv/locked/secret.pdf'")
  /\ PyFs.is_file (fs Example.env) (mkPath "/" ["srv"; "public"; "manual.pdf"])
     = Return true
  /\ find_pdf_files Example.env (Some "/srv") = Return []
  /\ ~ In (mkPath "/" ["srv"; "public"; "manual.pdf"])
          (match find_pdf_files Example.env (Some "/srv") with
           | Return l => l
           | _ => []
           end).
Proof.
  vm_compute. repeat split; try reflexivity. intros [].
Qed.

(** C8, amended.  A permission error never makes the search fail: the
    search returns a list, unless a file-system call raises an [OSError]
    of another kind.  A subtree that cannot be listed is skipped by the
    traversal itself, which goes on with the entries after it.  But when
    [is_file] raises a [PermissionError] on a yielded path, before which
    every path was examined without error and fewer than 20 regular files
    were kept, the error is swallowed and the result is exactly the
    regular files among the paths before it: the loop is abandoned there,
    and the paths the traversal would have yielded afterwards play no part
    in the result. *)
Theorem permission_error_ends_search :
  (forall env dir,
      (exists l, find_pdf_files env dir = Return l)
      \/ exists errno strerror p,
           find_pdf_files env dir = Raise (PyFs.os_error errno strerror p)
           /\ PyFs.errno_class errno = OSError)
  /\ (forall pat path name before d s sub after,
        PyFs.walk pat path
          (Dir name (mkPerms true true)
               (before ++ Dir d (mkPerms false s) sub :: after)) =
        PyFs.select_matching pat path
          (before ++ Dir d (mkPerms false s) sub :: after)
        ++ flat_map (fun e => PyFs.walk pat (PyPath.child path (PyFs.node_name e)) e)
                    before
        ++ flat_map (fun e => PyFs.walk pat (PyPath.child path (PyFs.node_name e)) e)
                    after)
  /\ (forall env dir yielded before pdf_file after e,
        PyFs.rglob (fs env) (search_root env dir) "*.pdf" = Return yielded ->
        yielded = before ++ pdf_file :: after ->
        forallb (answers env) before = true ->
        PyFs.is_file (fs env) pdf_file = Raise e ->
        exn_class e = PermissionError ->
        List.length (filter (regular env) before) < 20 ->
        scan env yielded [] = (filter (regular env) before, Raise e)
        /\ find_pdf_files env dir = Return (filter (regular env) before)).
Proof.
  split; [|split].
  - apply find_pdf_files_outcome.
  - intros pat path name before d s sub after.
    rewrite walk_open, flat_map_app. cbn [flat_map].
    rewrite walk_unlistable. reflexivity.
  - intros env dir yielded before pdf_file after e Hg Hy Hans Hraise He Hlen.
    assert (Hs : scan env yielded [] = (filter (regular env) before, Raise e)).
    { subst yielded. apply (scan_stops env before after pdf_file e []);
        assumption. }
    split; [exact Hs|].
    unfold find_pdf_files. rewrite Hg, Hs, He. reflexivity.
Qed.

Lemma permission_error_ends_search_witness :
  find_pdf_files Example.env (Some "/mix") = Return [mkPath "/" ["mix"; "first.pdf"]]
  /\ PyFs.is_file (fs Example.env) (mkPath "/" ["mix"; "public"; "later.pdf"])
     = Return true
  /\ PyFs.walk "*.pdf" (PyPath.parse "/var")
       (Dir "var" (mkPerms true true)
            ([] ++ Dir "private" (mkPerms false false) [File "hidden.pdf"]
                :: [Dir "shared" (mkPerms true true) [File "seen.pdf"]]))
     = [mkPath "/" ["var"; "shared"; "seen.pdf"]]
  /\ find_pdf_files Example.env (Some "/var")
     = Return [mkPath "/" ["var"; "shared"; "seen.pdf"]].
Proof.
  destruct permission_error_ends_search as (_ & Hskip & Hstop).
  split; [|split; [|split]]; [| | |reflexivity].
  - apply (Hstop Example.env (Some "/mix")
             [ mkPath "/" ["mix"; "first.pdf"];
               mkPath "/" ["mix"; "locked"; "secret.pdf"];
               mkPath "/" ["mix"; "public"; "later.pdf"] ]
             [ mkPath "/" ["mix"; "first.pdf"] ]
             (mkPath "/" ["mix"; "locked"; "secret.pdf"])
             [ mkPath "/" ["mix"; "public"; "later.pdf"] ]
             (PyFs.permission_denied (mkPath "/" ["mix"; "locked"; "secret.pdf"]))).
    + reflexivity.
    + reflexivity.
    + reflexivity.
    + reflexivity.
    + reflexivity.
    + simpl. lia.
  - reflexivity.
  - rewrite Hskip. reflexivity.
Defined.

Lemma suffix_of_empty_argument : PyPath.suffix (PyPath.parse "") = "".
Proof. reflexivity. Qed.

(** C10.  Every candidate the search returns is a regular file, kept by
    the [is_file] check, whose name ends in the lower-case [.pdf], which is
    all the pattern matches; so its name never ends in [.PDF].  The path
    resolver does accept an existing path with the suffix [.PDF], as the
    command-line argument and at manual entry. *)
Theorem search_keeps_regular_lowercase_pdf :
  forall env dir pdf_files,
    find_pdf_files env dir = Return pdf_files ->
    (forall name,
        Fnmatch.fnmatchcase name "*.pdf" = true <->
        exists stem, name = (stem ++ ".pdf")%string)
    /\ (forall p, In p pdf_files ->
          PyFs.is_file (fs env) p = Return true
          /\ (exists stem, PyPath.name p = (stem ++ ".pdf")%string)
          /\ (forall stem, PyPath.name p <> (stem ++ ".PDF")%string))
    /\ (forall arg w,
          PyFs.exists_ (fs env) (PyPath.parse arg) = Return true ->
          PyPath.suffix (PyPath.parse arg) = ".PDF" ->
          main_pdf_path env (Some arg) w = (Return (PyPath.parse arg), w))
    /\ (forall line rest out,
          PyFs.exists_ (fs env) (PyPath.parse (clean_path env line)) = Return true ->
          PyPath.suffix (PyPath.parse (clean_path env line)) = ".PDF" ->
          get_manual_path env (line :: rest) out =
          (Return (Some (PyPath.parse (clean_path env line))), rest,
           out ++ [tip; path_prompt])).
Proof.
  intros env dir pdf_files Hfind. repeat apply conj.
  - apply fnmatch_pdf.
  - intros p Hin.
    destruct (find_pdf_files_kept env dir pdf_files p Hfind Hin) as [Hfile Hname].
    apply fnmatch_pdf in Hname. destruct Hname as [stem Hname].
    split; [exact Hfile|]. split; [now exists stem|].
    intros stem' Heq. rewrite Hname in Heq.
    apply append_same_length_suffix in Heq; [|reflexivity].
    destruct Heq as [_ Heq]. discriminate.
  - intros arg w Hex Hsuf.
    assert (Hne : arg <> "").
    { intros ->. rewrite suffix_of_empty_argument in Hsuf. discriminate. }
    rewrite (main_pdf_path_argument _ _ _ Hne), Hex, Hsuf. reflexivity.
  - intros line rest out Hex Hsuf.
    apply manual_accept; [exact Hex|]. rewrite Hsuf. reflexivity.
Qed.

Lemma search_keeps_regular_lowercase_pdf_witness :
  find_pdf_files Example.env None =
    Return [ mkPath "/" ["home"; "u"; "a.pdf"];
             mkPath "/" ["home"; "u"; "scans.pdf"; "page.pdf"];
             mkPath "/" ["home"; "u"; "docs"; "b.pdf"];
             mkPath "/" ["home"; "u"; "docs"; "broken.pdf"] ]
  /\ PyFs.is_file (fs Example.env) (mkPath "/" ["home"; "u"; "a.pdf"]) = Return true
  /\ main_pdf_path Example.env (Some "report.PDF") (Example.fresh [])
     = (Return (PyPath.parse "report.PDF"), Example.fresh []).
Proof.
  split; [vm_compute; reflexivity|].
  destruct (search_keeps_regular_lowercase_pdf Example.env None
              [ mkPath "/" ["home"; "u"; "a.pdf"];
                mkPath "/" ["home"; "u"; "scans.pdf"; "page.pdf"];
                mkPath "/" ["home"; "u"; "docs"; "b.pdf"];
                mkPath "/" ["home"; "u"; "docs"; "broken.pdf"] ])
    as (_ & Hkept & Harg & _); [vm_compute; reflexivity|].
  split.
  - apply Hkept. left. reflexivity.
  - apply Harg; reflexivity.
Defined.

(** ** Slices and suffixes *)

Lemma substring_all s : substring 0 (String.length s) s = s.
Proof. induction s as [|c s IH]; simpl; [reflexivity|now rewrite IH]. Qed.

Lemma substring_split s : forall k,
  k <= String.length s ->
  (substring 0 k s ++ substring k (String.length s - k) s)%string = s.
Proof.
  induction s as [|c s IH]; intros k Hk.
  - simpl in Hk. replace k with 0 by lia. reflexivity.
  - destruct k as [|k].
    + simpl. now rewrite substring_all.
    + simpl in *. rewrite IH by lia. reflexivity.
Qed.

Lemma substring_length s : forall n m,
  String.length (substring n m s) = Nat.min m (String.length s - n).
Proof.
  induction s as [|c s IH]; intros n m.
  - destruct n, m; reflexivity.
  - destruct n as [|n].
    + destruct m as [|m]; [reflexivity|]. simpl. rewrite IH. rewrite Nat.sub_0_r.
      reflexivity.
    + simpl. apply IH.
Qed.

Lemma adjust_nonneg len k : k <= len -> PyStr.adjust len (Z.of_nat k) = k.
Proof.
  intros Hk. unfold PyStr.adjust.
  destruct (Z.ltb_spec (Z.of_nat k) 0); lia.
Qed.

Lemma adjust_from_end len k :
  0 < k <= len -> PyStr.adjust len (- Z.of_nat k) = len - k.
Proof.
  intros Hk. unfold PyStr.adjust.
  destruct (Z.ltb_spec (- Z.of_nat k) 0); lia.
Qed.

Lemma slice_from s k :
  k <= String.length s ->
  PyStr.slice s (Some (Z.of_nat k)) None = substring k (String.length s - k) s.
Proof.
  intros Hk. unfold PyStr.slice. rewrite adjust_nonneg by exact Hk. reflexivity.
Qed.

Lemma slice_drop_last s k :
  0 < k <= String.length s ->
  PyStr.slice s None (Some (- Z.of_nat k)%Z) = substring 0 (String.length s - k) s.
Proof.
  intros Hk. unfold PyStr.slice. rewrite adjust_from_end by exact Hk.
  rewrite Nat.sub_0_r. reflexivity.
Qed.

Lemma lower_length s : String.length (PyStr.lower s) = String.length s.
Proof. induction s as [|c s IH]; simpl; [reflexivity|now rewrite IH]. Qed.

(** A non-empty suffix splits the name: a non-empty stem, then the suffix
    from the last dot on. *)
Lemma suffix_splits_name p :
  PyPath.suffix p <> "" ->
  exists k,
    0 < k /\ k + String.length (PyPath.suffix p) = String.length (PyPath.name p)
    /\ PyPath.name p = (substring 0 k (PyPath.name p) ++ PyPath.suffix p)%string.
Proof.
  unfold PyPath.suffix. intros Hne.
  unfold PyStr.rfind in *.
  destruct (PyStr.rfind_opt "." (PyPath.name p)) as [i|].
  - destruct ((0 <? Z.of_nat i)%Z && (Z.of_nat i <? Z.of_nat (String.length (PyPath.name p)) - 1)%Z)%bool
      eqn:Hc; [|congruence].
    apply andb_true_iff in Hc. destruct Hc as [H0 H1].
    apply Z.ltb_lt in H0, H1.
    assert (Hi : i <= String.length (PyPath.name p)) by lia.
    rewrite slice_from by exact Hi.
    exists i. split; [lia|]. split.
    + rewrite substring_length. lia.
    + symmetry. apply substring_split. exact Hi.
  - simpl in Hne. congruence.
Qed.

Lemma name_nonempty_parts p : PyPath.name p <> "" -> PyPath.parts p <> [].
Proof.
  unfold PyPath.name. intros H Hnil. rewrite Hnil in H. apply H. reflexivity.
Qed.

(** C7.  For a path whose suffix is [.pdf] in any letter case, the output
    path of [save_markdown] has the same root and directory components
    and, as name, the name of the input with its four-character suffix
    replaced by [.md]; that is where the text is written. *)
Theorem output_path_replaces_extension :
  forall env md_text pdf_path w,
    PyStr.lower (PyPath.suffix pdf_path) = ".pdf" ->
    exists stem ext,
      PyPath.name pdf_path = (stem ++ ext)%string
      /\ ext = PyPath.suffix pdf_path
      /\ String.length ext = 4
      /\ stem <> ""
      /\ PyPath.with_suffix pdf_path ".md" =
         Return (mkPath (root pdf_path)
                        (removelast (parts pdf_path) ++ [(stem ++ ".md")%string]))
      /\ PyPath.parent (mkPath (root pdf_path)
                          (removelast (parts pdf_path) ++ [(stem ++ ".md")%string]))
         = PyPath.parent pdf_path
      /\ PyPath.name (mkPath (root pdf_path)
                        (removelast (parts pdf_path) ++ [(stem ++ ".md")%string]))
         = (stem ++ ".md")%string
      /\ (write_error env
            (mkPath (root pdf_path)
                    (removelast (parts pdf_path) ++ [(stem ++ ".md")%string])) = None ->
          save_markdown env md_text pdf_path w =
          (Return (Some (mkPath (root pdf_path)
                           (removelast (parts pdf_path) ++ [(stem ++ ".md")%string]))),
           mkWorld (stdin w)
             (stdout w ++
              [Print ("Markdown saved to: " ++
                      PyPath.str (mkPath (root pdf_path)
                        (removelast (parts pdf_path) ++ [(stem ++ ".md")%string])))%string])
             (written w ++
              [(mkPath (root pdf_path)
                  (removelast (parts pdf_path) ++ [(stem ++ ".md")%string]), md_text)]))).
Proof.
  intros env md_text pdf_path w Hpdf.
  assert (Hlen : String.length (PyPath.suffix pdf_path) = 4).
  { rewrite <- lower_length, Hpdf. reflexivity. }
  assert (Hne : PyPath.suffix pdf_path <> "").
  { intros H. rewrite H in Hlen. discriminate. }
  destruct (suffix_splits_name pdf_path Hne) as (k & Hk & Hsum & Hname).
  set (stem := substring 0 k (PyPath.name pdf_path)) in *.
  assert (Hstem : stem <> "").
  { intros H. rewrite H in Hname. simpl in Hname.
    rewrite <- Hname in Hsum. lia. }
  assert (Hnm : PyPath.name pdf_path <> "").
  { intros H. rewrite H in Hsum. simpl in Hsum. lia. }
  assert (Hws : PyPath.with_suffix pdf_path ".md" =
    Return (mkPath (root pdf_path)
                   (removelast (parts pdf_path) ++ [(stem ++ ".md")%string]))).
  { unfold PyPath.with_suffix.
    change (PyStr.contains "/" ".md") with false.
    change ((negb (String.eqb ".md" "") && negb (PyStr.startswith ".md" ".")
             || String.eqb ".md" ".")%bool) with false.
    cbv iota.
    apply String.eqb_neq in Hnm. rewrite Hnm.
    apply String.eqb_neq in Hne. rewrite Hne.
    rewrite slice_drop_last by lia.
    replace (String.length (PyPath.name pdf_path)
             - String.length (PyPath.suffix pdf_path)) with k by lia.
    reflexivity. }
  exists stem, (PyPath.suffix pdf_path).
  repeat apply conj; try assumption; try reflexivity.
  - unfold PyPath.parent. simpl. rewrite removelast_last. reflexivity.
  - unfold PyPath.name. simpl. apply last_last.
  - intros Hw. unfold save_markdown. rewrite Hws, Hw. reflexivity.
Qed.

Lemma output_path_replaces_extension_witness :
  PyPath.with_suffix (PyPath.parse "/home/u/report.PDF") ".md"
    = Return (PyPath.parse "/home/u/report.md")
  /\ written (snd (save_markdown Example.env "# text"
                     (PyPath.parse "/home/u/report.PDF") (Example.fresh [])))
     = [(PyPath.parse "/home/u/report.md", "# text")].
Proof.
  destruct (output_path_replaces_extension Example.env "# text"
              (PyPath.parse "/home/u/report.PDF") (Example.fresh []))
    as (stem & ext & Hname & Hext & Hlen & _ & Hws & _ & _ & Hsave);
    [reflexivity|].
  assert (Hstem : stem = "report").
  { subst ext.
    change (PyPath.name (PyPath.parse "/home/u/report.PDF"))
      with ("report" ++ ".PDF")%string in Hname.
    change (PyPath.suffix (PyPath.parse "/home/u/report.PDF")) with ".PDF" in Hname.
    apply append_same_length_suffix in Hname; [|reflexivity].
    symmetry. apply Hname. }
  subst stem. split.
  - exact Hws.
  - rewrite Hsave; reflexivity.
Defined.

(** ** The clean-up of a manually entered path *)

Lemma startswith_char s q :
  PyStr.startswith s (String q "") = Wording.starts_with_char q s.
Proof.
  unfold PyStr.startswith. destruct s as [|a s]; simpl; [reflexivity|].
  destruct (Ascii.ascii_dec q a) as [->|Hne].
  - rewrite Ascii.eqb_refl. destruct s; reflexivity.
  - symmetry. apply Ascii.eqb_neq. congruence.
Qed.

Lemma endswith_char s q :
  PyStr.endswith s (String q "") = Wording.ends_with_char q s.
Proof.
  induction s as [|a s IH]; [reflexivity|].
  cbn [PyStr.endswith]. rewrite IH.
  destruct s as [|b s].
  - simpl. rewrite orb_false_r. destruct (Ascii.eqb a q); reflexivity.
  - replace (String.eqb (String a (String b s)) (String q "")) with false.
    + reflexivity.
    + simpl. destruct (Ascii.eqb a q); reflexivity.
Qed.

Lemma substring_drop_last s :
  substring 0 (String.length s - 1) s = Wording.drop_last s.
Proof.
  induction s as [|a s IH]; [reflexivity|].
  destruct s as [|b s]; [reflexivity|].
  simpl in *. rewrite Nat.sub_0_r in IH. rewrite IH. reflexivity.
Qed.

(** [s[1:-1]] drops the first and the last character. *)
Lemma slice_inner s :
  PyStr.slice s (Some 1%Z) (Some (-1)%Z) = Wording.drop_last (Wording.drop_first s).
Proof.
  unfold PyStr.slice, PyStr.adjust.
  destruct s as [|a s]; [reflexivity|].
  cbn [Wording.drop_first]. rewrite <- substring_drop_last.
  change ((1 <? 0)%Z) with false. change ((-1 <? 0)%Z) with true. cbv iota.
  cbn [String.length].
  replace (Z.to_nat (Z.max 0 (Z.min 1 (Z.of_nat (S (String.length s)))))) with 1 by lia.
  replace (Z.to_nat (Z.max 0 (Z.min (-1 + Z.of_nat (S (String.length s)))
                                (Z.of_nat (S (String.length s))))))
    with (String.length s) by lia.
  reflexivity.
Qed.

Lemma strip_quotes_wording s : strip_quotes s = Wording.remove_quotes s.
Proof.
  unfold strip_quotes, Wording.remove_quotes, Wording.quoted_by, dquote, squote.
  rewrite !startswith_char, !endswith_char, slice_inner. reflexivity.
Qed.

Lemma substring_app_right a : forall b,
  substring (String.length a) (String.length b) (a ++ b)%string = b.
Proof.
  induction a as [|c a IH]; intros b; simpl.
  - apply substring_all.
  - apply IH.
Qed.




Lemma slice_after_prefix p r :
  PyStr.slice (p ++ r)%string (Some (Z.of_nat (String.length p))) None = r.
Proof.
  rewrite slice_from by (rewrite append_length; lia).
  rewrite append_length.
  replace (String.length p + String.length r - String.length p)
    with (String.length r) by lia.
  apply substring_app_right.
Qed.






Lemma ends_with_char_snoc q u :
  Wording.ends_with_char q (u ++ String q "")%string = true.
Proof.
  induction u as [|a u IH]; simpl.
  - apply Ascii.eqb_refl.
  - destruct (u ++ String q "")%string eqn:Hu; [destruct u; discriminate|exact IH].
Qed.

Lemma drop_last_snoc q u : Wording.drop_last (u ++ String q "")%string = u.
Proof.
  induction u as [|a u IH]; simpl; [reflexivity|].
  destruct (u ++ String q "")%string eqn:Hu; [destruct u; discriminate|].
  now rewrite IH.
Qed.

Lemma remove_quotes_layer q u :
  q = ascii_of_nat 34 \/ q = "'"%char ->
  Wording.remove_quotes (String q (u ++ String q "")) = u.
Proof.
  intros Hq. unfold Wording.remove_quotes, Wording.quoted_by.
  cbn [Wording.starts_with_char Wording.drop_first].
  assert (He : Wording.ends_with_char q (String q (u ++ String q "")) = true).
  { change (String q (u ++ String q "")) with ((String q u) ++ String q "")%string.
    apply ends_with_char_snoc. }
  destruct Hq as [-> | ->].
  - rewrite He. cbn [Ascii.eqb Bool.eqb andb ascii_of_nat]. simpl.
    apply drop_last_snoc.
  - rewrite He. simpl. apply drop_last_snoc.
Qed.






(** C4 holds of the program except on one kind of line: a line that is
    one quote character.  The claim removes a leading and a trailing
    quote, so it leaves that line as it is, and the path does not exist:
    manual entry would report the missing file and ask whether to try
    again.  The program finds the one character at both ends and takes
    the text between them, which is empty: the path is the working
    directory, which exists and has no suffix, so manual entry prints
    that [''] is not a PDF file and prompts again, without asking. *)
Theorem lone_quote_is_taken_for_a_pair :
  Stated.sanitize (users Example.env) dquote = dquote
  /\ PyFs.exists_ (fs Example.env) (PyPath.parse dquote) = Return false
  /\ clean_path Example.env dquote = ""
  /\ clean_path Example.env squote = ""
  /\ PyFs.exists_ (fs Example.env) (PyPath.parse "") = Return true
  /\ get_manual_path Example.env [dquote] [] =
     (Raise end_of_input, [],
      [ tip; path_prompt;
        Print "Error: '' is not a PDF file. Please provide a PDF file.";
        tip; path_prompt ])
  /\ clean_path Example.env "  'file://~/docs/b.pdf' "
     = Stated.sanitize (users Example.env) "  'file://~/docs/b.pdf' "
  /\ clean_path Example.env "  'file://~/docs/b.pdf' " = "/home/u/docs/b.pdf".
Proof.
  vm_compute. repeat split; reflexivity.
Qed.

(** ** What the resolver returns *)

Lemma select_loop_returns files lines : forall out p lines' out',
  select_loop files lines out = (Return (Some p), lines', out') -> In p files.
Proof.
  induction lines as [|line rest IH]; intros out p lines' out' H.
  - discriminate.
  - cbn [select_loop] in H.
    destruct (String.eqb _ "q"); [discriminate|].
    destruct (PyStr.int _) as [n|].
    + destruct (_ && _)%bool.
      * destruct (nth_error files (Z.to_nat (n - 1))) as [f|] eqn:Hnth;
          [|discriminate].
        inversion H. subst. eapply nth_error_In. exact Hnth.
      * eapply IH. exact H.
    + eapply IH. exact H.
Qed.

Lemma select_from_list_returns env files lines out p lines' out' :
  select_from_list env files lines out = (Return (Some p), lines', out') ->
  In p files.
Proof.
  unfold select_from_list. destruct files as [|f files]; [discriminate|].
  apply select_loop_returns.
Qed.

(** Manual entry returns only paths that exist and have the suffix. *)
Lemma get_manual_path_returns env : forall n lines out p lines' out',
  List.length lines <= n ->
  get_manual_path env lines out = (Return (Some p), lines', out') ->
  PyFs.exists_ (fs env) p = Return true
  /\ PyStr.lower (PyPath.suffix p) = ".pdf".
Proof.
  induction n as [|n IH]; intros lines out p lines' out' Hlen H.
  - destruct lines; [discriminate|simpl in Hlen; lia].
  - destruct lines as [|line rest]; [discriminate|].
    cbn [get_manual_path] in H. simpl in Hlen.
    destruct (PyFs.exists_ (fs env) (PyPath.parse (clean_path env line)))
      as [[|]|e|c] eqn:Hex; try discriminate.
    + destruct (String.eqb (PyStr.lower (PyPath.suffix (PyPath.parse (clean_path env line))))
                  ".pdf") eqn:Hsuf; cbn [negb] in H.
      * inversion H. subst. split; [exact Hex|]. now apply String.eqb_eq.
      * eapply (IH rest); [lia|exact H].
    + destruct rest as [|answer rest']; [discriminate|].
      destruct (negb _); [discriminate|].
      eapply (IH rest'); [simpl in Hlen; lia|exact H].
Qed.

(** A path the interactive selection returns passed the checks of manual
    entry or was kept by a search. *)
Lemma option_loop_returns env : forall n lines out p lines' out',
  List.length lines <= n ->
  option_loop env lines out = (Return (Some p), lines', out') ->
  (PyFs.exists_ (fs env) p = Return true /\ PyStr.lower (PyPath.suffix p) = ".pdf")
  \/ (exists dir l, find_pdf_files env dir = Return l /\ In p l).
Proof.
  induction n as [|n IH]; intros lines out p lines' out' Hlen H.
  - destruct lines; [discriminate|simpl in Hlen; lia].
  - destruct lines as [|line rest]; [discriminate|].
    cbn [option_loop] in H. simpl in Hlen.
    destruct (String.eqb (PyStr.strip line) "1").
    { left. eapply get_manual_path_returns; [apply Nat.le_refl|exact H]. }
    destruct (String.eqb (PyStr.strip line) "2").
    { destruct (find_pdf_files env None) as [[|f l]|e|c] eqn:Hfind; try discriminate.
      - eapply (IH rest); [lia|exact H].
      - right. exists None, (f :: l). split; [exact Hfind|].
        eapply select_from_list_returns. exact H. }
    destruct (String.eqb (PyStr.strip line) "3").
    { destruct rest as [|line' rest']; [discriminate|]. simpl in Hlen.
      destruct (PyFs.exists_ (fs env) (PyPath.parse (clean_dir line')))
        as [[|]|e|c]; try discriminate.
      - destruct (find_pdf_files env (Some (clean_dir line'))) as [[|f l]|e|c] eqn:Hfind;
          try discriminate.
        + eapply (IH rest'); [lia|exact H].
        + right. exists (Some (clean_dir line')), (f :: l). split; [exact Hfind|].
          eapply select_from_list_returns. exact H.
      - eapply (IH rest'); [lia|exact H]. }
    eapply (IH rest); [lia|exact H].
Qed.

(** The interactive selection never returns the path of the empty string. *)
Lemma get_pdf_path_not_empty_path env lines out lines' out' :
  get_pdf_path env lines out <> (Return (Some (PyPath.parse "")), lines', out').
Proof.
  intros H. unfold get_pdf_path in H.
  apply (option_loop_returns env (List.length lines)) in H; [|apply Nat.le_refl].
  destruct H as [[_ Hsuf]|(dir & l & Hfind & Hin)].
  - discriminate.
  - apply (find_pdf_files_kept env dir l _ Hfind) in Hin.
    destruct Hin as [_ Hname]. discriminate.
Qed.

(** C2.  A path that exists and whose suffix is [.pdf] in any letter case
    is accepted and returned, as the command-line argument and at manual
    entry (there, the path is the cleaned line).  A path that does not
    exist, or exists with another suffix, is rejected: as an argument it
    is never the path [main] goes on with, and a non-empty one ends the
    process with status 1; at manual entry the loop prints its error and
    asks again (or offers to give up), and whatever manual entry returns
    in the end exists and has the suffix. *)
Theorem path_resolver_accepts_exactly_valid_paths :
  forall env,
    (forall arg w,
        PyFs.exists_ (fs env) (PyPath.parse arg) = Return true ->
        PyStr.lower (PyPath.suffix (PyPath.parse arg)) = ".pdf" ->
        main_pdf_path env (Some arg) w = (Return (PyPath.parse arg), w))
    /\ (forall arg w,
          PyFs.exists_ (fs env) (PyPath.parse arg) = Return false
          \/ (PyFs.exists_ (fs env) (PyPath.parse arg) = Return true
              /\ PyStr.lower (PyPath.suffix (PyPath.parse arg)) <> ".pdf") ->
          fst (main_pdf_path env (Some arg) w) <> Return (PyPath.parse arg)
          /\ (arg <> "" ->
              fst (main_pdf_path env (Some arg) w) = SysExit 1%Z
              /\ stdin (snd (main_pdf_path env (Some arg) w)) = stdin w))
    /\ (forall line rest out,
          PyFs.exists_ (fs env) (PyPath.parse (clean_path env line)) = Return true ->
          PyStr.lower (PyPath.suffix (PyPath.parse (clean_path env line))) = ".pdf" ->
          get_manual_path env (line :: rest) out =
          (Return (Some (PyPath.parse (clean_path env line))), rest,
           out ++ [tip; path_prompt]))
    /\ (forall line answer rest out,
          PyFs.exists_ (fs env) (PyPath.parse (clean_path env line)) = Return false ->
          get_manual_path env (line :: answer :: rest) out =
          if String.eqb (PyStr.lower (PyStr.strip answer)) "y"
          then get_manual_path env rest
                 (out ++ [tip; path_prompt]
                      ++ missing_messages env (PyPath.parse (clean_path env line))
                      ++ [retry_prompt])
          else (Return None, rest,
                out ++ [tip; path_prompt]
                    ++ missing_messages env (PyPath.parse (clean_path env line))
                    ++ [retry_prompt]))
    /\ (forall line rest out,
          PyFs.exists_ (fs env) (PyPath.parse (clean_path env line)) = Return true ->
          PyStr.lower (PyPath.suffix (PyPath.parse (clean_path env line))) <> ".pdf" ->
          get_manual_path env (line :: rest) out =
          get_manual_path env rest
            (out ++ [tip; path_prompt; not_pdf_message (clean_path env line)]))
    /\ (forall lines out p lines' out',
          get_manual_path env lines out = (Return (Some p), lines', out') ->
          PyFs.exists_ (fs env) p = Return true
          /\ PyStr.lower (PyPath.suffix p) = ".pdf").
Proof.
  intros env. repeat apply conj.
  - intros arg w Hex Hsuf.
    assert (Hne : arg <> "").
    { intros ->. rewrite suffix_of_empty_argument in Hsuf. discriminate. }
    rewrite (main_pdf_path_argument _ _ _ Hne), Hex, Hsuf. reflexivity.
  - intros arg w Hbad.
    assert (Hexit : arg <> "" ->
              fst (main_pdf_path env (Some arg) w) = SysExit 1%Z
              /\ stdin (snd (main_pdf_path env (Some arg) w)) = stdin w).
    { intros Hne. rewrite (main_pdf_path_argument _ _ _ Hne).
      destruct Hbad as [Hex|[Hex Hsuf]]; rewrite Hex.
      - split; reflexivity.
      - apply String.eqb_neq in Hsuf. rewrite Hsuf. split; reflexivity. }
    split; [|exact Hexit].
    destruct (String.string_dec arg "") as [->|Hne].
    + rewrite main_pdf_path_interactive by (right; reflexivity).
      destruct (get_pdf_path env (stdin w) (stdout w)) as [[[[p|]|e|c] lines] out] eqn:Hg;
        simpl; try discriminate.
      intros Heq. inversion Heq. subst p.
      exact (get_pdf_path_not_empty_path env _ _ _ _ Hg).
    + destruct (Hexit Hne) as [H _]. rewrite H. discriminate.
  - intros line rest out. apply manual_accept.
  - intros line answer rest out. apply manual_missing.
  - intros line rest out. apply manual_not_pdf.
  - intros lines out p lines' out' H.
    eapply (get_manual_path_returns env (List.length lines)); [apply Nat.le_refl|exact H].
Qed.

Lemma path_resolver_accepts_exactly_valid_paths_witness :
  main_pdf_path Example.env (Some "report.PDF") (Example.fresh [])
    = (Return (PyPath.parse "report.PDF"), Example.fresh [])
  /\ fst (main_pdf_path Example.env (Some "notes.txt") (Example.fresh [])) = SysExit 1%Z
  /\ get_manual_path Example.env ["~/a.pdf"] []
     = (Return (Some (PyPath.parse "/home/u/a.pdf")), [], [tip; path_prompt]).
Proof.
  destruct (path_resolver_accepts_exactly_valid_paths Example.env)
    as (Harg & Hrej & Hman & _).
  repeat apply conj.
  - apply Harg; reflexivity.
  - apply (Hrej "notes.txt" (Example.fresh [])).
    + right. split; [reflexivity|discriminate].
    + discriminate.
  - apply (Hman "~/a.pdf" [] []); reflexivity.
Defined.

(** * Further properties of the program *)

(** ** The search, when nothing interrupts it *)

Lemma scan_uninterrupted env ys : forall acc,
  forallb (answers env) ys = true ->
  List.length acc < 20 ->
  scan env ys acc =
  (acc ++ firstn (20 - List.length acc) (filter (regular env) ys), Return tt).
Proof.
  induction ys as [|y ys IH]; intros acc Hans Hlen.
  - simpl. rewrite firstn_nil, app_nil_r. reflexivity.
  - simpl in Hans. apply andb_true_iff in Hans. destruct Hans as [Hy Hans].
    cbn [scan filter]. unfold answers in Hy. unfold regular at 1.
    destruct (PyFs.is_file (fs env) y) as [[|]|e|c]; try discriminate.
    + destruct (20 - List.length acc) as [|k] eqn:Hk; [lia|]. cbn [firstn].
      destruct (20 <=? List.length (acc ++ [y])) eqn:Hcap.
      * apply Nat.leb_le in Hcap. rewrite length_app in Hcap.
        cbn [List.length] in Hcap. replace k with 0 by lia. reflexivity.
      * apply Nat.leb_gt in Hcap. rewrite IH by assumption.
        rewrite length_app in *. cbn [List.length] in *.
        replace (20 - (List.length acc + 1)) with k by lia.
        rewrite <- app_assoc. reflexivity.
    + apply IH; assumption.
Qed.

(** X1.  When [is_file] answers for every path the traversal yields, the
    search returns the first 20 regular files among them, in the order of
    the traversal. *)
Theorem search_returns_first_twenty_in_order :
  forall env dir yielded,
    PyFs.rglob (fs env) (search_root env dir) "*.pdf" = Return yielded ->
    forallb (answers env) yielded = true ->
    find_pdf_files env dir = Return (firstn 20 (filter (regular env) yielded)).
Proof.
  intros env dir yielded Hg Hans. unfold find_pdf_files. rewrite Hg.
  rewrite (scan_uninterrupted env yielded [] Hans) by (simpl; lia).
  reflexivity.
Qed.

Lemma search_returns_first_twenty_in_order_witness :
  find_pdf_files Example.env (Some "/many") =
  Return (firstn 20 (filter (regular Example.env)
                       (map (fun i => mkPath "/" ["many"; (PyStr.str_of_nat i ++ ".pdf")%string])
                            (seq 1 25)))).
Proof.
  apply (search_returns_first_twenty_in_order Example.env (Some "/many")).
  - vm_compute. reflexivity.
  - vm_compute. reflexivity.
Defined.

(** The search result is always a prefix of the regular files yielded,
    whatever ends the loop. *)
Lemma scan_prefix env ys : forall acc,
  exists n, fst (scan env ys acc) = acc ++ firstn n (filter (regular env) ys).
Proof.
  induction ys as [|y ys IH]; intros acc.
  - exists 0. simpl. now rewrite app_nil_r.
  - cbn [scan filter]. unfold regular at 1.
    destruct (PyFs.is_file (fs env) y) as [[|]|e|c].
    + destruct (20 <=? List.length (acc ++ [y])).
      * exists 1. reflexivity.
      * destruct (IH (acc ++ [y])) as [n Hn]. exists (S n).
        rewrite Hn, <- app_assoc. reflexivity.
    + apply IH.
    + exists 0. simpl. now rewrite app_nil_r.
    + exists 0. simpl. now rewrite app_nil_r.
Qed.

Lemma firstn_of_its_length {A : Type} (l : list A) n :
  firstn (List.length (firstn n l)) l = firstn n l.
Proof.
  rewrite length_firstn.
  destruct (Nat.le_ge_cases n (List.length l)) as [H|H].
  - now rewrite Nat.min_l.
  - rewrite Nat.min_r by exact H. rewrite firstn_all.
    symmetry. now apply firstn_all2.
Qed.

(** X2.  Whenever the search returns, its result is a prefix of the
    regular files in traversal order, as many of them as it has entries:
    it never reorders candidates, never skips one to take a later one, and
    never lists one twice unless the traversal yields it twice. *)
Theorem search_result_is_a_prefix :
  forall env dir yielded pdf_files,
    PyFs.rglob (fs env) (search_root env dir) "*.pdf" = Return yielded ->
    find_pdf_files env dir = Return pdf_files ->
    pdf_files = firstn (List.length pdf_files) (filter (regular env) yielded).
Proof.
  intros env dir yielded pdf_files Hg Hfind.
  destruct (find_pdf_files_cases env dir pdf_files Hfind) as [(ys & Hg' & H')|H'].
  - rewrite Hg in Hg'. inversion Hg'. subst ys.
    destruct (scan_prefix env yielded []) as [n Hn]. cbn [app] in Hn.
    rewrite H', Hn. symmetry. apply firstn_of_its_length.
  - subst pdf_files. reflexivity.
Qed.

Lemma search_result_is_a_prefix_witness :
  [mkPath "/" ["mix"; "first.pdf"]] =
  firstn (List.length [mkPath "/" ["mix"; "first.pdf"]])
         (filter (regular Example.env)
            [ mkPath "/" ["mix"; "first.pdf"];
              mkPath "/" ["mix"; "locked"; "secret.pdf"];
              mkPath "/" ["mix"; "public"; "later.pdf"] ])
  /\ filter (regular Example.env)
        [ mkPath "/" ["mix"; "first.pdf"];
          mkPath "/" ["mix"; "locked"; "secret.pdf"];
          mkPath "/" ["mix"; "public"; "later.pdf"] ]
     = [ mkPath "/" ["mix"; "first.pdf"]; mkPath "/" ["mix"; "public"; "later.pdf"] ].
Proof.
  split.
  - apply (search_result_is_a_prefix Example.env (Some "/mix")).
    + vm_compute. reflexivity.
    + vm_compute. reflexivity.
  - reflexivity.
Defined.

(** ** Typing the number the picklist shows *)

(** X3.  Typing the number of a picklist line, as it is displayed (with
    its padding) or bare, selects the candidate on that line: [int] reads
    back what the listing printed. *)
Theorem typing_the_displayed_number_selects_that_line :
  forall env pdf_files k f rest out,
    nth_error pdf_files k = Some f ->
    PyStr.int (PyStr.str_of_nat (S k)) = Some (Z.of_nat (S k))
    /\ nth_error (listing env 1 pdf_files) k =
       Some (Print (PyStr.format_2d (S k) ++ ". " ++ display_path env f)%string)
    /\ select_from_list env pdf_files (PyStr.format_2d (S k) :: rest) out =
       (Return (Some f), rest,
        out ++ picklist_shown env pdf_files ++ [select_prompt pdf_files])
    /\ select_from_list env pdf_files (PyStr.str_of_nat (S k) :: rest) out =
       (Return (Some f), rest,
        out ++ picklist_shown env pdf_files ++ [select_prompt pdf_files]).
Proof.
  intros env pdf_files k f rest out Hnth.
  assert (Hne : pdf_files <> []) by (intros ->; destruct k; discriminate).
  assert (Hk : k < List.length pdf_files)
    by (apply nth_error_Some; congruence).
  assert (Hpick : forall line,
            PyStr.strip line = PyStr.str_of_nat (S k) ->
            select_from_list env pdf_files (line :: rest) out =
            (Return (Some f), rest,
             out ++ picklist_shown env pdf_files ++ [select_prompt pdf_files])).
  { intros line Hline. rewrite select_from_list_loop by exact Hne.
    rewrite (select_loop_number _ _ _ _ (Z.of_nat (S k)))
      by (rewrite Hline; apply int_str_of_nat).
    replace (Z.to_nat (Z.of_nat (S k) - 1)) with k by lia. rewrite Hnth.
    replace ((0 <=? Z.of_nat (S k) - 1)%Z
             && (Z.of_nat (S k) - 1 <? Z.of_nat (List.length pdf_files))%Z)%bool
      with true.
    - rewrite <- app_assoc. reflexivity.
    - symmetry. apply andb_true_iff. split; [apply Z.leb_le|apply Z.ltb_lt]; lia. }
  repeat apply conj.
  - apply int_str_of_nat.
  - apply (listing_nth env pdf_files 1 k f Hnth).
  - apply Hpick. apply strip_format_2d.
  - apply Hpick. apply strip_digits. apply string_of_uint_digits.
Qed.

Lemma typing_the_displayed_number_selects_that_line_witness :
  select_from_list Example.env Example.first_twenty [" 5"] [] =
  (Return (Some (mkPath "/" ["many"; "5.pdf"])), [],
   picklist_shown Example.env Example.first_twenty
   ++ [select_prompt Example.first_twenty]).
Proof.
  apply (typing_the_displayed_number_selects_that_line Example.env
           Example.first_twenty 4 (mkPath "/" ["many"; "5.pdf"]) [] []).
  reflexivity.
Defined.

(** ** The picklist loop on lines it turns down *)

Lemma select_loop_rejected files line rest out :
  rejected_choice files line = true ->
  select_loop files (line :: rest) out =
  select_loop files rest
    (out ++ [select_prompt files; rejection_message files line]).
Proof.
  unfold rejected_choice, rejection_message. intros H.
  apply andb_true_iff in H. destruct H as [Hq Hn].
  apply negb_true_iff in Hq. cbn [select_loop]. rewrite Hq.
  destruct (PyStr.int (PyStr.strip line)) as [n|].
  - apply negb_true_iff in Hn. rewrite Hn. rewrite <- app_assoc. reflexivity.
  - rewrite <- app_assoc. reflexivity.
Qed.

(** X4.  The picklist turns down any run of lines that are neither [q] nor
    a number in range: each costs one prompt and one corrective message,
    and the loop carries on with the rest of the input exactly as if it
    had started there. *)
Theorem picklist_skips_rejected_lines :
  forall pdf_files bad rest out,
    forallb (rejected_choice pdf_files) bad = true ->
    select_loop pdf_files (bad ++ rest) out =
    select_loop pdf_files rest
      (out ++ flat_map (fun line => [select_prompt pdf_files;
                                     rejection_message pdf_files line]) bad).
Proof.
  intros pdf_files bad rest. induction bad as [|line bad IH]; intros out Hbad.
  - simpl. now rewrite app_nil_r.
  - simpl in Hbad. apply andb_true_iff in Hbad. destruct Hbad as [Hl Hbad].
    cbn [app flat_map]. rewrite (select_loop_rejected _ _ _ _ Hl).
    rewrite IH by exact Hbad. rewrite <- app_assoc. reflexivity.
Qed.

Lemma picklist_skips_rejected_lines_witness :
  select_loop Example.first_twenty (["x"; "21"; "0"; ""] ++ ["5"]) [] =
  select_loop Example.first_twenty ["5"]
    ([] ++ flat_map (fun line => [select_prompt Example.first_twenty;
                                  rejection_message Example.first_twenty line])
                    ["x"; "21"; "0"; ""]).
Proof.
  apply (picklist_skips_rejected_lines Example.first_twenty ["x"; "21"; "0"; ""]).
  reflexivity.
Defined.







(** ** The menu on recoverable conditions *)

Lemma option_loop_unknown env line rest out :
  unknown_option line = true ->
  option_loop env (line :: rest) out =
  option_loop env rest (out ++ [option_prompt; Print "Please enter 1, 2, or 3"]).
Proof.
  unfold unknown_option. intros H.
  apply andb_true_iff in H. destruct H as [H H3].
  apply andb_true_iff in H. destruct H as [H1 H2].
  apply negb_true_iff in H1, H2, H3.
  cbn [option_loop]. rewrite H1, H2, H3. rewrite <- app_assoc. reflexivity.
Qed.

(** X6.  Every recoverable condition at the menu prints its message and
    asks for an option again, on the input that is left: any run of lines
    that are none of [1], [2], [3]; a home search without results; a
    search directory that does not exist; a directory search without
    results. *)
Theorem menu_recovers :
  forall env,
    (forall bad rest out,
        forallb unknown_option bad = true ->
        option_loop env (bad ++ rest) out =
        option_loop env rest
          (out ++ flat_map (fun _ => [option_prompt;
                                      Print "Please enter 1, 2, or 3"]) bad))
    /\ (forall line rest out,
          PyStr.strip line = "2" ->
          find_pdf_files env None = Return [] ->
          option_loop env (line :: rest) out =
          option_loop env rest
            (out ++ [option_prompt; Print "No PDF files found in home directory."]))
    /\ (forall line line' rest out,
          PyStr.strip line = "3" ->
          PyFs.exists_ (fs env) (PyPath.parse (clean_dir line')) = Return false ->
          option_loop env (line :: line' :: rest) out =
          option_loop env rest
            (out ++ [option_prompt; directory_prompt;
                     Print ("Directory '" ++ clean_dir line' ++ "' does not exist.")%string]))
    /\ (forall line line' rest out,
          PyStr.strip line = "3" ->
          PyFs.exists_ (fs env) (PyPath.parse (clean_dir line')) = Return true ->
          find_pdf_files env (Some (clean_dir line')) = Return [] ->
          option_loop env (line :: line' :: rest) out =
          option_loop env rest
            (out ++ [option_prompt; directory_prompt;
                     Print ("No PDF files found in '" ++ clean_dir line' ++ "'.")%string])).
Proof.
  intros env. repeat apply conj.
  - intros bad rest. induction bad as [|line bad IH]; intros out Hbad.
    + simpl. now rewrite app_nil_r.
    + simpl in Hbad. apply andb_true_iff in Hbad. destruct Hbad as [Hl Hbad].
      cbn [app flat_map]. rewrite (option_loop_unknown _ _ _ _ Hl).
      rewrite IH by exact Hbad. rewrite <- app_assoc. reflexivity.
  - intros line rest out H Hfind. cbn [option_loop]. rewrite H, Hfind.
    cbn [String.eqb Ascii.eqb Bool.eqb]. rewrite <- app_assoc. reflexivity.
  - intros line line' rest out H Hex. cbn [option_loop]. rewrite H.
    cbn [String.eqb Ascii.eqb Bool.eqb]. rewrite Hex.
    rewrite <- !app_assoc. reflexivity.
  - intros line line' rest out H Hex Hfind. cbn [option_loop]. rewrite H.
    cbn [String.eqb Ascii.eqb Bool.eqb]. rewrite Hex, Hfind.
    rewrite <- !app_assoc. reflexivity.
Qed.

Lemma menu_recovers_witness :
  option_loop Example.env (["0"; "four"; ""] ++ ["1"; "a.pdf"]) [] =
  option_loop Example.env ["1"; "a.pdf"]
    ([] ++ flat_map (fun _ => [option_prompt; Print "Please enter 1, 2, or 3"])
                    ["0"; "four"; ""])
  /\ option_loop Example.env ["3"; "/nowhere"; "1"; "a.pdf"] [] =
     option_loop Example.env ["1"; "a.pdf"]
       ([] ++ [option_prompt; directory_prompt;
               Print ("Directory '" ++ clean_dir "/nowhere" ++ "' does not exist.")%string]).
Proof.
  destruct (menu_recovers Example.env) as (Hbad & _ & Hdir & _).
  split.
  - apply Hbad. reflexivity.
  - apply Hdir; reflexivity.
Defined.

(** ** The output path, for any path *)

(** The name is a stem followed by the suffix (possibly empty), and
    [with_suffix] puts [.md] after the stem. *)
Lemma with_suffix_md p :
  PyPath.name p <> "" ->
  exists stem,
    PyPath.name p = (stem ++ PyPath.suffix p)%string
    /\ PyPath.with_suffix p ".md" =
       Return (mkPath (root p) (removelast (parts p) ++ [(stem ++ ".md")%string])).
Proof.
  intros Hnm. unfold PyPath.with_suffix.
  change (PyStr.contains "/" ".md") with false.
  change ((negb (String.eqb ".md" "") && negb (PyStr.startswith ".md" ".")
           || String.eqb ".md" ".")%bool) with false.
  cbv iota.
  pose proof Hnm as Hnm'. apply String.eqb_neq in Hnm'. rewrite Hnm'.
  destruct (String.eqb (PyPath.suffix p) "") eqn:Hs.
  - apply String.eqb_eq in Hs. exists (PyPath.name p). rewrite Hs.
    split; [now rewrite append_nil_r|reflexivity].
  - apply String.eqb_neq in Hs.
    destruct (suffix_splits_name p Hs) as (k & Hk & Hsum & Hname).
    exists (substring 0 k (PyPath.name p)). split; [exact Hname|].
    assert (Hpos : 0 < String.length (PyPath.suffix p)).
    { destruct (PyPath.suffix p); [congruence|simpl; lia]. }
    rewrite slice_drop_last by lia.
    replace (String.length (PyPath.name p) - String.length (PyPath.suffix p))
      with k by lia.
    reflexivity.
Qed.

(** X7.  For any path with a name, the output path of [save_markdown] has
    the same root and directory and, as name, the input's name with its
    [Path.suffix] (possibly empty, as for [README] or [.pdf]) replaced by
    [.md].  The text is written there when the file is opened, written
    and closed without error.  If [open] fails, [save_markdown] prints
    the message of the exception, returns [None] and touches no file; if
    the write or the close fails, it prints the message and returns
    [None] too, and the file, which [open] created or emptied, is left
    with what was written.  For a path without a name ([.] or [/]) it
    raises the [ValueError] of [with_suffix] before anything is printed
    or written. *)
Theorem save_markdown_output_path :
  forall env md_text pdf_path w,
    (PyPath.name pdf_path <> "" ->
     exists stem output_path,
       PyPath.name pdf_path = (stem ++ PyPath.suffix pdf_path)%string
       /\ output_path = mkPath (root pdf_path)
                          (removelast (parts pdf_path) ++ [(stem ++ ".md")%string])
       /\ PyPath.parent output_path = PyPath.parent pdf_path
       /\ match write_error env output_path with
          | None =>
              save_markdown env md_text pdf_path w =
              (Return (Some output_path),
               mkWorld (stdin w)
                 (stdout w ++ [Print ("Markdown saved to: " ++ PyPath.str output_path)%string])
                 (written w ++ [(output_path, md_text)]))
          | Some (OpenFails e) =>
              save_markdown env md_text pdf_path w =
              (Return None,
               mkWorld (stdin w)
                 (stdout w ++ [Print ("Error saving markdown file: " ++ exn_str e)%string])
                 (written w))
          | Some (WriteFails e remains) =>
              save_markdown env md_text pdf_path w =
              (Return None,
               mkWorld (stdin w)
                 (stdout w ++ [Print ("Error saving markdown file: " ++ exn_str e)%string])
                 (written w ++ [(output_path, remains)]))
          end)
    /\ (PyPath.name pdf_path = "" ->
        save_markdown env md_text pdf_path w =
        (Raise (mkExn ValueError
                  ("PosixPath(" ++ PyStr.repr (PyPath.str pdf_path)
                   ++ ") has an empty name")%string), w)).
Proof.
  intros env md_text pdf_path w. split.
  - intros Hnm. destruct (with_suffix_md pdf_path Hnm) as (stem & Hname & Hws).
    exists stem. eexists. split; [exact Hname|]. split; [reflexivity|]. split.
    + unfold PyPath.parent. simpl. rewrite removelast_last. reflexivity.
    + unfold save_markdown. rewrite Hws.
      destruct (write_error env _) as [[e|e remains]|]; reflexivity.
  - intros Hnm. unfold save_markdown, PyPath.with_suffix.
    change (PyStr.contains "/" ".md") with false.
    change ((negb (String.eqb ".md" "") && negb (PyStr.startswith ".md" ".")
             || String.eqb ".md" ".")%bool) with false.
    cbv iota. rewrite Hnm. cbn [String.eqb]. unfold PyPath.repr.
    rewrite !append_assoc. reflexivity.
Qed.

Lemma save_markdown_output_path_witness :
  save_markdown Example.env "text" (PyPath.parse "/home/u/docs/.pdf") (Example.fresh [])
  = (Return (Some (PyPath.parse "/home/u/docs/.pdf.md")),
     mkWorld [] [Print "Markdown saved to: /home/u/docs/.pdf.md"]
             [(PyPath.parse "/home/u/docs/.pdf.md", "text")])
  /\ save_markdown Example.env "text" (PyPath.parse "/") (Example.fresh [])
     = (Raise (mkExn ValueError "PosixPath('/') has an empty name"), Example.fresh [])
  /\ save_markdown Example.env_disk_full "text" (PyPath.parse "/home/u/a.pdf")
       (Example.fresh [])
     = (Return None,
        mkWorld []
          [Print "Error saving markdown file: [Errno 28] No space left on device"]
          [(PyPath.parse "/home/u/a.md", "")]).
Proof.
  destruct (save_markdown_output_path Example.env "text"
              (PyPath.parse "/home/u/docs/.pdf") (Example.fresh [])) as [Hnamed _].
  destruct (save_markdown_output_path Example.env "text"
              (PyPath.parse "/") (Example.fresh [])) as [_ Hbare].
  destruct (save_markdown_output_path Example.env_disk_full "text"
              (PyPath.parse "/home/u/a.pdf") (Example.fresh [])) as [Hfull _].
  split; [|split].
  - destruct Hnamed as (stem & o & Hname & Ho & _ & Hsave); [discriminate|].
    change (PyPath.name (PyPath.parse "/home/u/docs/.pdf")) with (".pdf" ++ "")%string in Hname.
    change (PyPath.suffix (PyPath.parse "/home/u/docs/.pdf")) with "" in Hname.
    apply append_same_length_suffix in Hname; [|reflexivity].
    destruct Hname as [<- _]. subst o. exact Hsave.
  - apply Hbare. reflexivity.
  - destruct Hfull as (stem & o & Hname & Ho & _ & Hsave); [discriminate|].
    change (PyPath.name (PyPath.parse "/home/u/a.pdf")) with ("a" ++ ".pdf")%string in Hname.
    change (PyPath.suffix (PyPath.parse "/home/u/a.pdf")) with ".pdf" in Hname.
    apply append_same_length_suffix in Hname; [|reflexivity].
    destruct Hname as [<- _]. subst o. exact Hsave.
Defined.

(** ** A whole run *)

Lemma main_convert_cases env pdf_path w :
  main_convert env pdf_path w =
  let extracting := Print ("Extracting text from: " ++ PyPath.str pdf_path)%string in
  match to_markdown env (PyPath.str pdf_path) with
  | Return md_text =>
      match PyPath.with_suffix pdf_path ".md" with
      | Return output_path =>
          match write_error env output_path with
          | None =>
              (Return tt,
               mkWorld (stdin w)
                 (stdout w ++
                  [ extracting;
                    Print ("Markdown saved to: " ++ PyPath.str output_path)%string;
                    Print (nl ++ "Extraction completed successfully!")%string;
                    Print ("Input PDF: " ++ PyPath.str pdf_path)%string;
                    Print ("Output Markdown: " ++ PyPath.str output_path)%string ])
                 (written w ++ [(output_path, md_text)]))
          | Some (OpenFails e) =>
              (SysExit 1%Z,
               mkWorld (stdin w)
                 (stdout w ++
                  [ extracting;
                    Print ("Error saving markdown file: " ++ exn_str e)%string ])
                 (written w))
          | Some (WriteFails e remains) =>
              (SysExit 1%Z,
               mkWorld (stdin w)
                 (stdout w ++
                  [ extracting;
                    Print ("Error saving markdown file: " ++ exn_str e)%string ])
                 (written w ++ [(output_path, remains)]))
          end
      | Raise e => (Raise e, mkWorld (stdin w) (stdout w ++ [extracting]) (written w))
      | SysExit c => (SysExit c, mkWorld (stdin w) (stdout w ++ [extracting]) (written w))
      end
  | Raise e =>
      (SysExit 1%Z,
       mkWorld (stdin w)
         (stdout w ++ [ extracting; Print ("Error extracting PDF: " ++ exn_str e)%string ])
         (written w))
  | SysExit c => (SysExit c, mkWorld (stdin w) (stdout w ++ [extracting]) (written w))
  end.
Proof.
  unfold main_convert, extract_pdf_to_markdown, save_markdown. cbv zeta.
  destruct (to_markdown env (PyPath.str pdf_path)) as [t|e|c]; try reflexivity.
  - destruct (PyPath.with_suffix pdf_path ".md") as [o|e|c]; try reflexivity.
    destruct (write_error env o) as [[e|e remains]|]; cbn [stdin stdout written];
      rewrite <- !app_assoc; reflexivity.
  - rewrite <- app_assoc. reflexivity.
Qed.

(** X8.  A run whose path is resolved, whose extraction returns a text and
    whose output file is opened, written and closed without error ends
    normally (exit status 0), having printed the five lines of the
    conversion and written exactly one file: the output path, holding the
    text as the library returned it. *)
Theorem successful_run_writes_the_text :
  forall env arg w pdf_path w1 md_text output_path,
    main_pdf_path env arg (mkWorld (stdin w) (stdout w ++ banner) (written w))
      = (Return pdf_path, w1) ->
    to_markdown env (PyPath.str pdf_path) = Return md_text ->
    PyPath.with_suffix pdf_path ".md" = Return output_path ->
    write_error env output_path = None ->
    main env arg w =
    (Return tt,
     mkWorld (stdin w1)
       (stdout w1 ++
        [ Print ("Extracting text from: " ++ PyPath.str pdf_path)%string;
          Print ("Markdown saved to: " ++ PyPath.str output_path)%string;
          Print (nl ++ "Extraction completed successfully!")%string;
          Print ("Input PDF: " ++ PyPath.str pdf_path)%string;
          Print ("Output Markdown: " ++ PyPath.str output_path)%string ])
       (written w ++ [(output_path, md_text)]))
    /\ exit_status (fst (main env arg w)) = 0%Z.
Proof.
  intros env arg w pdf_path w1 md_text output_path Hpath Htext Hout Hopen.
  assert (Hm : main env arg w =
    (Return tt,
     mkWorld (stdin w1)
       (stdout w1 ++
        [ Print ("Extracting text from: " ++ PyPath.str pdf_path)%string;
          Print ("Markdown saved to: " ++ PyPath.str output_path)%string;
          Print (nl ++ "Extraction completed successfully!")%string;
          Print ("Input PDF: " ++ PyPath.str pdf_path)%string;
          Print ("Output Markdown: " ++ PyPath.str output_path)%string ])
       (written w ++ [(output_path, md_text)]))).
  { rewrite main_unfold, Hpath, main_convert_cases. cbv zeta.
    rewrite Htext, Hout, Hopen.
    apply main_pdf_path_written in Hpath. cbn [written] in Hpath.
    rewrite Hpath. reflexivity. }
  rewrite Hm. split; reflexivity.
Qed.

Lemma successful_run_writes_the_text_witness :
  main Example.env (Some "docs/b.pdf") (Example.fresh []) =
  (Return tt,
   mkWorld []
     [ Print "PDF to Markdown Extractor";
       Print "------------------------------";
       Print "Extracting text from: docs/b.pdf";
       Print "Markdown saved to: docs/b.md";
       Print (nl ++ "Extraction completed successfully!")%string;
       Print "Input PDF: docs/b.pdf";
       Print "Output Markdown: docs/b.md" ]
     [(mkPath "" ["docs"; "b.md"], "# docs/b.pdf")]).
Proof.
  destruct (successful_run_writes_the_text Example.env (Some "docs/b.pdf")
              (Example.fresh [])
              (mkPath "" ["docs"; "b.pdf"]) (mkWorld [] banner [])
              "# docs/b.pdf"
              (mkPath "" ["docs"; "b.md"])) as [Hm _].
  - reflexivity.
  - reflexivity.
  - reflexivity.
  - reflexivity.
  - rewrite Hm. reflexivity.
Defined.

(** X9.  If writing the output file fails, the run prints the message of
    the exception after the extraction line and exits with status 1.
    When it was [open] that failed, no file has been touched; when the
    write or the close failed, the output file, which [open] created or
    emptied, is left with what was written. *)
Theorem write_failure_exits_1 :
  forall env arg w pdf_path w1 md_text output_path,
    main_pdf_path env arg (mkWorld (stdin w) (stdout w ++ banner) (written w))
      = (Return pdf_path, w1) ->
    to_markdown env (PyPath.str pdf_path) = Return md_text ->
    PyPath.with_suffix pdf_path ".md" = Return output_path ->
    (forall cls message,
        write_error env output_path = Some (OpenFails (mkExn cls message)) ->
        main env arg w =
        (SysExit 1%Z,
         mkWorld (stdin w1)
           (stdout w1 ++
            [ Print ("Extracting text from: " ++ PyPath.str pdf_path)%string;
              Print ("Error saving markdown file: " ++ message)%string ])
           (written w)))
    /\ (forall cls message remains,
          write_error env output_path = Some (WriteFails (mkExn cls message) remains) ->
          main env arg w =
          (SysExit 1%Z,
           mkWorld (stdin w1)
             (stdout w1 ++
              [ Print ("Extracting text from: " ++ PyPath.str pdf_path)%string;
                Print ("Error saving markdown file: " ++ message)%string ])
             (written w ++ [(output_path, remains)]))).
Proof.
  intros env arg w pdf_path w1 md_text output_path Hpath Htext Hout.
  pose proof (main_pdf_path_written _ _ _ _ _ Hpath) as Hw. cbn [written] in Hw.
  split.
  - intros cls message Hopen.
    rewrite main_unfold, Hpath, main_convert_cases. cbv zeta.
    rewrite Htext, Hout, Hopen, Hw. reflexivity.
  - intros cls message remains Hwrite.
    rewrite main_unfold, Hpath, main_convert_cases. cbv zeta.
    rewrite Htext, Hout, Hwrite, Hw. reflexivity.
Qed.

Lemma write_failure_exits_1_witness :
  main Example.env_read_only (Some "docs/b.pdf") (Example.fresh []) =
  (SysExit 1%Z,
   mkWorld []
     [ Print "PDF to Markdown Extractor";
       Print "------------------------------";
       Print "Extracting text from: docs/b.pdf";
       Print "Error saving markdown file: [Errno 13] Permission denied: 'docs/b.md'" ]
     [])
  /\ main Example.env_disk_full (Some "docs/b.pdf") (Example.fresh []) =
     (SysExit 1%Z,
      mkWorld []
        [ Print "PDF to Markdown Extractor";
          Print "------------------------------";
          Print "Extracting text from: docs/b.pdf";
          Print "Error saving markdown file: [Errno 28] No space left on device" ]
        [(mkPath "" ["docs"; "b.md"], "")]).
Proof.
  split.
  - destruct (write_failure_exits_1 Example.env_read_only (Some "docs/b.pdf")
                (Example.fresh [])
                (mkPath "" ["docs"; "b.pdf"]) (mkWorld [] banner [])
                "# docs/b.pdf" (mkPath "" ["docs"; "b.md"])) as [Hopen _].
    + reflexivity.
    + reflexivity.
    + reflexivity.
    + rewrite (Hopen PermissionError "[Errno 13] Permission denied: 'docs/b.md'")
        by reflexivity.
      reflexivity.
  - destruct (write_failure_exits_1 Example.env_disk_full (Some "docs/b.pdf")
                (Example.fresh [])
                (mkPath "" ["docs"; "b.pdf"]) (mkWorld [] banner [])
                "# docs/b.pdf" (mkPath "" ["docs"; "b.md"])) as [_ Hwrite].
    + reflexivity.
    + reflexivity.
    + reflexivity.
    + rewrite (Hwrite OSError "[Errno 28] No space left on device" "")
        by reflexivity.
      reflexivity.
Defined.


(** ** The output is never the input *)

Lemma main_pdf_path_returns env arg w p w1 :
  main_pdf_path env arg w = (Return p, w1) ->
  (PyFs.exists_ (fs env) p = Return true /\ PyStr.lower (PyPath.suffix p) = ".pdf")
  \/ (exists dir l, find_pdf_files env dir = Return l /\ In p l).
Proof.
  unfold main_pdf_path. intros H.
  destruct (match arg with Some a => negb (String.eqb a "") | None => false end).
  - left.
    destruct (PyFs.exists_ (fs env)
                (PyPath.parse (match arg with Some a => a | None => "" end)))
      as [[|]|e|c] eqn:Hex; try discriminate.
    destruct (String.eqb
                (PyStr.lower
                   (PyPath.suffix
                      (PyPath.parse (match arg with Some a => a | None => "" end))))
                ".pdf") eqn:Hs; cbn [negb] in H; [|discriminate].
    inversion H. subst. split; [exact Hex|now apply String.eqb_eq].
  - destruct (get_pdf_path env (stdin w) (stdout w)) as [[[[q|]|e|c] lines] out] eqn:Hg;
      try discriminate.
    inversion H. subst. unfold get_pdf_path in Hg.
    eapply (option_loop_returns env (List.length (stdin w))); [apply Nat.le_refl|exact Hg].
Qed.

Lemma append_inj_l a : forall x y, (a ++ x)%string = (a ++ y)%string -> x = y.
Proof.
  induction a as [|c a IH]; intros x y H; simpl in H; [exact H|].
  inversion H. now apply IH.
Qed.

Lemma name_empty_suffix p : PyPath.name p = "" -> PyPath.suffix p = "".
Proof. intros H. unfold PyPath.suffix. rewrite H. reflexivity. Qed.

(** A path the program goes on with has a name, and its suffix is not
    [.md]. *)
Lemma resolved_suffix_not_md env p :
  (PyFs.exists_ (fs env) p = Return true /\ PyStr.lower (PyPath.suffix p) = ".pdf")
  \/ (exists dir l, find_pdf_files env dir = Return l /\ In p l) ->
  PyPath.name p <> "" /\ PyPath.suffix p <> ".md".
Proof.
  intros [[_ Hsuf]|(dir & l & Hfind & Hin)].
  - split.
    + intros Hn. rewrite (name_empty_suffix p Hn) in Hsuf. discriminate.
    + intros Hs. rewrite Hs in Hsuf. vm_compute in Hsuf. discriminate.
  - destruct (find_pdf_files_kept env dir l p Hfind Hin) as [_ Hname].
    apply fnmatch_pdf in Hname. destruct Hname as [stem Hname]. split.
    + intros Hn. rewrite Hn in Hname. destruct stem; discriminate.
    + intros Hs.
      assert (Hne : PyPath.suffix p <> "") by (rewrite Hs; discriminate).
      destruct (suffix_splits_name p Hne) as (k & _ & _ & Hsplit).
      rewrite Hs, Hname in Hsplit.
      change ".pdf" with (".pd" ++ "f")%string in Hsplit.
      change ".md" with (".m" ++ "d")%string in Hsplit.
      rewrite <- !append_assoc in Hsplit.
      apply append_same_length_suffix in Hsplit; [|reflexivity].
      destruct Hsplit as [_ Hc]. discriminate.
Qed.

(** X11.  Whatever path the program goes on with, from the command line or
    from the interactive selection, the output path exists as a value (no
    [ValueError]), has the same root and directory components, has a name
    ending in [.md] and is not the same path as the input path.  (Two
    different paths can still name one file, through a link; the model
    does not follow links.) *)
Theorem output_is_never_the_input :
  forall env arg w pdf_path w1,
    main_pdf_path env arg w = (Return pdf_path, w1) ->
    exists stem output_path,
      PyPath.with_suffix pdf_path ".md" = Return output_path
      /\ PyPath.name output_path = (stem ++ ".md")%string
      /\ PyPath.parent output_path = PyPath.parent pdf_path
      /\ output_path <> pdf_path.
Proof.
  intros env arg w pdf_path w1 H.
  destruct (resolved_suffix_not_md env pdf_path (main_pdf_path_returns _ _ _ _ _ H))
    as [Hnm Hnmd].
  destruct (with_suffix_md pdf_path Hnm) as (stem & Hname & Hws).
  exists stem. eexists. split; [exact Hws|].
  assert (Hlast : PyPath.name
                    (mkPath (root pdf_path)
                       (removelast (parts pdf_path) ++ [(stem ++ ".md")%string]))
                  = (stem ++ ".md")%string).
  { unfold PyPath.name. simpl. apply last_last. }
  split; [exact Hlast|]. split.
  - unfold PyPath.parent. simpl. rewrite removelast_last. reflexivity.
  - intros Heq. rewrite Heq in Hlast. rewrite Hname in Hlast.
    apply append_inj_l in Hlast. exact (Hnmd Hlast).
Qed.

Lemma output_is_never_the_input_witness :
  exists stem output_path,
    PyPath.with_suffix (PyPath.parse "report.PDF") ".md" = Return output_path
    /\ PyPath.name output_path = (stem ++ ".md")%string
    /\ PyPath.parent output_path = PyPath.parent (PyPath.parse "report.PDF")
    /\ output_path <> PyPath.parse "report.PDF".
Proof.
  apply (output_is_never_the_input Example.env (Some "report.PDF")
           (Example.fresh []) (PyPath.parse "report.PDF") (Example.fresh [])).
  reflexivity.
Defined.

(** ** A run with an argument *)

Ltac no_prompt_branch :=
  cbn [fst snd stdin stdout written];
  split; [reflexivity|];
  eexists; split; [try rewrite <- app_assoc; reflexivity|reflexivity].

(** X12.  With a non-empty command-line argument the program is not
    interactive, whatever the outcome: it reads nothing from standard
    input and prints no prompt. *)
Theorem argument_run_never_prompts :
  forall env arg w,
    arg <> "" ->
    stdin (snd (main env (Some arg) w)) = stdin w
    /\ exists printed,
         stdout (snd (main env (Some arg) w)) = stdout w ++ printed
         /\ existsb is_prompt printed = false.
Proof.
  intros env arg w Hne.
  rewrite main_unfold, (main_pdf_path_argument _ _ _ Hne).
  destruct (PyFs.exists_ (fs env) (PyPath.parse arg)) as [[|]|e|c].
  - destruct (negb (String.eqb (PyStr.lower (PyPath.suffix (PyPath.parse arg))) ".pdf")).
    + no_prompt_branch.
    + rewrite main_convert_cases. cbv zeta.
      destruct (to_markdown env (PyPath.str (PyPath.parse arg))) as [t|e|c].
      * destruct (PyPath.with_suffix (PyPath.parse arg) ".md") as [o|e|c].
        -- destruct (write_error env o) as [[e|e remains]|]; no_prompt_branch.
        -- no_prompt_branch.
        -- no_prompt_branch.
      * no_prompt_branch.
      * no_prompt_branch.
  - no_prompt_branch.
  - cbn [fst snd stdin stdout written]. split; [reflexivity|].
    exists banner. split; reflexivity.
  - cbn [fst snd stdin stdout written]. split; [reflexivity|].
    exists banner. split; reflexivity.
Qed.

Lemma argument_run_never_prompts_witness :
  stdin (snd (main Example.env (Some "docs/b.pdf") (Example.fresh ["1"; "q"])))
  = ["1"; "q"].
Proof.
  apply (argument_run_never_prompts Example.env "docs/b.pdf"
           (Example.fresh ["1"; "q"])).
  discriminate.
Defined.

(** ** Search candidates and the suffix check *)

Lemma rfind_opt_app c a : forall b,
  PyStr.rfind_opt c (a ++ b)%string =
  match PyStr.rfind_opt c b with
  | Some i => Some (String.length a + i)
  | None => PyStr.rfind_opt c a
  end.
Proof.
  induction a as [|x a IH]; intros b; simpl.
  - destruct (PyStr.rfind_opt c b); reflexivity.
  - rewrite IH. destruct (PyStr.rfind_opt c b); reflexivity.
Qed.

Lemma suffix_of_pdf_name p stem :
  PyPath.name p = (stem ++ ".pdf")%string -> stem <> "" ->
  PyPath.suffix p = ".pdf".
Proof.
  intros Hname Hne. unfold PyPath.suffix, PyStr.rfind. rewrite Hname.
  rewrite rfind_opt_app. change (PyStr.rfind_opt "." ".pdf") with (Some 0).
  cbv iota. rewrite Nat.add_0_r, append_length.
  assert (Hpos : 0 < String.length stem) by (destruct stem; [congruence|simpl; lia]).
  replace ((0 <? Z.of_nat (String.length stem))%Z
           && (Z.of_nat (String.length stem)
               <? Z.of_nat (String.length stem + String.length ".pdf") - 1)%Z)%bool
    with true.
  - apply slice_after_prefix.
  - symmetry. apply andb_true_iff. split; apply Z.ltb_lt; simpl String.length; lia.
Qed.

(** X13.  Every search candidate whose name is not exactly [.pdf] has the
    [Path.suffix] [.pdf], so it passes the same suffix check as an argument
    or a manually entered path; a candidate named exactly [.pdf] has no
    suffix. *)
Theorem search_candidates_have_the_suffix :
  forall env dir pdf_files p,
    find_pdf_files env dir = Return pdf_files ->
    In p pdf_files ->
    (PyPath.name p <> ".pdf" ->
     PyPath.suffix p = ".pdf" /\ PyStr.lower (PyPath.suffix p) = ".pdf")
    /\ (PyPath.name p = ".pdf" -> PyPath.suffix p = "").
Proof.
  intros env dir pdf_files p Hfind Hin.
  destruct (find_pdf_files_kept env dir pdf_files p Hfind Hin) as [_ Hname].
  apply fnmatch_pdf in Hname. destruct Hname as [stem Hname]. split.
  - intros Hnot.
    assert (Hstem : stem <> "") by (intros ->; apply Hnot; exact Hname).
    rewrite (suffix_of_pdf_name p stem Hname Hstem). split; reflexivity.
  - intros Hdot. unfold PyPath.suffix. rewrite Hdot. reflexivity.
Qed.

Lemma search_candidates_have_the_suffix_witness :
  PyPath.suffix (mkPath "/" ["home"; "u"; "scans.pdf"; "page.pdf"]) = ".pdf".
Proof.
  apply (search_candidates_have_the_suffix Example.env None
           [ mkPath "/" ["home"; "u"; "a.pdf"];
             mkPath "/" ["home"; "u"; "scans.pdf"; "page.pdf"];
             mkPath "/" ["home"; "u"; "docs"; "b.pdf"];
             mkPath "/" ["home"; "u"; "docs"; "broken.pdf"] ]
           (mkPath "/" ["home"; "u"; "scans.pdf"; "page.pdf"])).
  - vm_compute. reflexivity.
  - right. left. reflexivity.
  - discriminate.
Defined.

(** ** The search directory as entered *)

(** X14.  The directory typed for a search gets the whitespace and quote
    clean-up only: one layer of matching quotes is removed, but neither a
    [file://] prefix nor a leading [~] is touched, so [~/docs] is looked up
    as the directory [~] under the working directory. *)
Theorem search_directory_is_only_unquoted :
  forall line,
    clean_dir line = Wording.remove_quotes (PyStr.strip line)
    /\ (Wording.quoted_by (ascii_of_nat 34) (PyStr.strip line) = false ->
        Wording.quoted_by "'" (PyStr.strip line) = false ->
        clean_dir line = PyStr.strip line)
    /\ (forall q u, q = ascii_of_nat 34 \/ q = "'"%char ->
          PyStr.strip line = String q (u ++ String q "") -> clean_dir line = u).
Proof.
  intros line. unfold clean_dir. rewrite strip_quotes_wording.
  split; [reflexivity|]. split.
  - intros Hd Hs. unfold Wording.remove_quotes. now rewrite Hd, Hs.
  - intros q u Hq Hline. rewrite Hline. apply remove_quotes_layer. exact Hq.
Qed.

Lemma search_directory_is_only_unquoted_witness :
  clean_dir " ~/docs " = "~/docs"
  /\ PyPath.parse (clean_dir " ~/docs ") = mkPath "" ["~"; "docs"].
Proof.
  destruct (search_directory_is_only_unquoted " ~/docs ") as (_ & Hplain & _).
  rewrite Hplain by reflexivity. split; reflexivity.
Defined.

(** ** How the picklist shows a path *)

Lemma parts_eqb_refl l : PyPath.parts_eqb l l = true.
Proof.
  induction l as [|x l IH]; simpl; [reflexivity|].
  now rewrite String.eqb_refl, IH.
Qed.

Lemma relative_to_ancestor r base rel :
  r <> "" ->
  PyPath.relative_to (mkPath r (base ++ rel)) (mkPath r base) = Return (mkPath "" rel).
Proof.
  intros Hr. unfold PyPath.relative_to, PyPath.abs_parts. cbn [root parts].
  apply String.eqb_neq in Hr. rewrite Hr.
  cbn [List.length Nat.eqb firstn skipn negb PyPath.parts_eqb].
  rewrite !String.eqb_refl. cbn [andb].
  rewrite firstn_app, firstn_all, Nat.sub_diag, firstn_O, app_nil_r.
  rewrite parts_eqb_refl. cbn [negb].
  rewrite skipn_app, skipn_all, Nat.sub_diag, skipn_O. reflexivity.
Qed.

(** X15.  With an absolute home directory, the picklist shows a path under
    the home directory as [~/] followed by the path relative to it (the
    home directory itself as [~/.]), and its numbered line carries that
    text. *)
Theorem paths_under_home_are_shown_relative :
  forall env rel,
    root (home env) <> "" ->
    display_path env (mkPath (root (home env)) (parts (home env) ++ rel))
    = ("~/" ++ PyPath.str (mkPath "" rel))%string
    /\ listing env 1 [mkPath (root (home env)) (parts (home env) ++ rel)]
       = [Print (" 1. ~/" ++ PyPath.str (mkPath "" rel))%string].
Proof.
  intros env rel Hr.
  assert (Hd : display_path env (mkPath (root (home env)) (parts (home env) ++ rel))
               = ("~/" ++ PyPath.str (mkPath "" rel))%string).
  { unfold display_path.
    replace (home env) with (mkPath (root (home env)) (parts (home env))) at 3
      by (destruct (home env); reflexivity).
    rewrite (relative_to_ancestor _ _ _ Hr). reflexivity. }
  split; [exact Hd|]. cbn [listing]. rewrite Hd. reflexivity.
Qed.

Lemma paths_under_home_are_shown_relative_witness :
  display_path Example.env (mkPath "/" ["home"; "u"; "docs"; "b.pdf"]) = "~/docs/b.pdf"
  /\ display_path Example.env (mkPath "/" ["home"; "u"]) = "~/.".
Proof.
  split.
  - apply (paths_under_home_are_shown_relative Example.env ["docs"; "b.pdf"]).
    discriminate.
  - apply (paths_under_home_are_shown_relative Example.env []). discriminate.
Defined.

(** ** What the interactive selection can raise *)






(** ** A path and its string *)

Lemma split_no_sep c s : PyStr.contains c s = false -> PyStr.split c s = [s].
Proof.
  induction s as [|a s IH]; intros H; [reflexivity|].
  simpl in H. apply orb_false_iff in H. destruct H as [Ha Hs].
  simpl. rewrite Ha, (IH Hs). reflexivity.
Qed.

Lemma split_app_sep c x rest :
  PyStr.contains c x = false ->
  PyStr.split c (x ++ String c rest)%string = x :: PyStr.split c rest.
Proof.
  induction x as [|a x IH]; intros H.
  - simpl. now rewrite Ascii.eqb_refl.
  - simpl in H. apply orb_false_iff in H. destruct H as [Ha Hx].
    simpl. rewrite Ha, (IH Hx). reflexivity.
Qed.

Lemma split_pieces c s : Forall (fun x => PyStr.contains c x = false) (PyStr.split c s).
Proof.
  induction s as [|a s IH]; simpl.
  - constructor; [reflexivity|constructor].
  - destruct (Ascii.eqb a c) eqn:Ha.
    + constructor; [reflexivity|exact IH].
    + destruct (PyStr.split c s) as [|w ws].
      * constructor; [simpl; now rewrite Ha|constructor].
      * inversion IH; subst. constructor; [simpl; now rewrite Ha|assumption].
Qed.

Lemma split_concat c parts :
  parts <> [] ->
  Forall (fun x => PyStr.contains c x = false) parts ->
  PyStr.split c (String.concat (String c "") parts) = parts.
Proof.
  induction parts as [|x xs IH]; intros Hne Hall; [congruence|].
  inversion Hall as [|? ? Hx Hxs]; subst.
  destruct xs as [|y ys].
  - simpl. now apply split_no_sep.
  - change (String.concat (String c "") (x :: y :: ys))
      with (x ++ String c (String.concat (String c "") (y :: ys)))%string.
    rewrite split_app_sep by exact Hx. rewrite IH; [reflexivity|discriminate|exact Hxs].
Qed.

Lemma filter_kept (l : list string) :
  Forall (fun x => PyStr.contains "/" x = false /\ PyPath.keep_part x = true) l ->
  filter PyPath.keep_part l = l.
Proof.
  induction 1 as [|x l [_ Hk] _ IH]; simpl; [reflexivity|].
  now rewrite Hk, IH.
Qed.

Lemma splitroot_root s :
  fst (PyPath.splitroot s) = "" \/ fst (PyPath.splitroot s) = "/"
  \/ fst (PyPath.splitroot s) = "//".
Proof.
  unfold PyPath.splitroot. destruct (PyStr.startswith s "/"); [|now left].
  destruct (_ =? 2); [right; now right|right; now left].
Qed.

Lemma parse_well_formed s : well_formed (PyPath.parse s).
Proof.
  unfold PyPath.parse. pose proof (splitroot_root s) as Hr.
  destruct (PyPath.splitroot s) as [r rel]. simpl in Hr. split; [exact Hr|].
  cbn [parts]. apply Forall_forall. intros x Hin. apply filter_In in Hin.
  destruct Hin as [Hin Hk]. split; [|exact Hk].
  pose proof (split_pieces "/" rel) as Hall. rewrite Forall_forall in Hall.
  now apply Hall.
Qed.

(** The joined parts, when there are some, start with a character that is
    not the separator. *)
Lemma concat_head x xs :
  PyStr.contains "/" x = false -> PyPath.keep_part x = true ->
  exists a t, String.concat "/" (x :: xs) = String a t /\ Ascii.eqb a "/" = false.
Proof.
  intros Hc Hk. destruct x as [|a x]; [discriminate|].
  simpl in Hc. apply orb_false_iff in Hc. destruct Hc as [Ha _].
  destruct xs; simpl; eauto.
Qed.

Lemma splitroot_plain a t :
  Ascii.eqb a "/" = false -> PyPath.splitroot (String a t) = ("", String a t).
Proof.
  intros Ha. unfold PyPath.splitroot. rewrite (startswith_char (String a t) "/").
  cbn [Wording.starts_with_char]. now rewrite Ha.
Qed.

Lemma splitroot_one a t :
  Ascii.eqb a "/" = false ->
  PyPath.splitroot (String "/" (String a t)) = ("/", String a t).
Proof.
  intros Ha. unfold PyPath.splitroot.
  rewrite (startswith_char (String "/" (String a t)) "/").
  cbn [Wording.starts_with_char PyPath.lstrip_char]. rewrite Ascii.eqb_refl, Ha.
  cbn [String.length].
  replace (S (S (String.length t)) - S (String.length t)) with 1 by lia.
  reflexivity.
Qed.

Lemma splitroot_two a t :
  Ascii.eqb a "/" = false ->
  PyPath.splitroot (String "/" (String "/" (String a t))) = ("//", String a t).
Proof.
  intros Ha. unfold PyPath.splitroot.
  rewrite (startswith_char (String "/" (String "/" (String a t))) "/").
  cbn [Wording.starts_with_char PyPath.lstrip_char]. rewrite Ascii.eqb_refl, Ha.
  cbn [String.length].
  replace (S (S (S (String.length t))) - S (String.length t)) with 2 by lia.
  reflexivity.
Qed.

Lemma parse_str p : well_formed p -> PyPath.parse (PyPath.str p) = p.
Proof.
  destruct p as [r ps]. intros [Hr Hall]. cbn [root parts] in *.
  unfold PyPath.str. cbn [root parts].
  destruct ps as [|x xs].
  - destruct Hr as [->|[->| ->]]; reflexivity.
  - inversion Hall as [|? ? [Hc Hk] Hxs]; subst.
    destruct (concat_head x xs Hc Hk) as (a & t & Hcat & Ha).
    assert (Hsplit : filter PyPath.keep_part
                       (PyStr.split "/" (String.concat "/" (x :: xs))) = x :: xs).
    { rewrite split_concat; [now apply filter_kept|discriminate|].
      eapply Forall_impl; [|exact Hall]. intros y [Hy _]. exact Hy. }
    rewrite Hcat in *.
    destruct Hr as [->|[->| ->]]; cbn [append String.eqb]; unfold PyPath.parse.
    + rewrite (splitroot_plain a t Ha). now rewrite Hsplit.
    + rewrite (splitroot_one a t Ha). now rewrite Hsplit.
    + rewrite (splitroot_two a t Ha). now rewrite Hsplit.
Qed.

(** X17.  The string of a path denotes the same path: for every string
    [s], [Path(str(Path(s)))] is [Path(s)], so the string handed to the
    extraction library and printed in the messages names the path that was
    checked. *)
Theorem path_string_round_trip :
  forall s,
    well_formed (PyPath.parse s)
    /\ PyPath.parse (PyPath.str (PyPath.parse s)) = PyPath.parse s
    /\ PyPath.str (PyPath.parse (PyPath.str (PyPath.parse s)))
       = PyPath.str (PyPath.parse s).
Proof.
  intros s. pose proof (parse_well_formed s) as Hwf.
  split; [exact Hwf|]. rewrite (parse_str _ Hwf). split; reflexivity.
Qed.

(** ** Manual entry, on every line but a lone quote *)



